(** * Acad Service: the IPS calculator and the student listing

    A shallow embedding of [acad-service/main.py].  The two request
    handlers, [get_mahasiswas] and [get_ips], are pure functions of what
    the storage returned for their query.  Python [str] values are
    modelled as ASCII [string]s, Python [int] as [Z], Python [float] as
    IEEE 754 binary64 through the Standard Library's [SpecFloat], and a
    raised exception as the left injection of a sum. *)

From Stdlib Require Import ZArith List String Ascii Bool Lia Permutation.
From Stdlib Require Import Numbers.DecimalString Floats.SpecFloat.
Import ListNotations.

Local Open Scope Z_scope.

(** ** Python [str]: the two methods the handler calls

    Grade tokens are ASCII text: the characters are those of codes 0 to
    127, on which [isspace], [upper] and [lower] are as Python has them.
    Outside ASCII, Python's [strip] also removes U+0085, U+00A0 and the
    other Unicode spaces, and [upper] maps letters such as U+00E9; the
    definitions below do not, so a statement about a token that is not
    known to be ASCII assumes [isascii] of it. *)

Module PyStr.

(** [str.isspace] on one ASCII character: TAB, LF, VT, FF, CR, the four
    separators FS GS RS US, and the space. *)
Definition isspace (c : ascii) : bool :=
  let n := N_of_ascii c in
  ((9 <=? n) && (n <=? 13) || (28 <=? n) && (n <=? 32))%N.

Fixpoint lstrip (s : string) : string :=
  match s with
  | EmptyString => EmptyString
  | String c s' => if isspace c then lstrip s' else s
  end.

Fixpoint rstrip (s : string) : string :=
  match s with
  | EmptyString => EmptyString
  | String c s' =>
      match rstrip s' with
      | EmptyString => if isspace c then EmptyString else String c EmptyString
      | t => String c t
      end
  end.

(** [s.strip()] with no argument. *)
Definition strip (s : string) : string := rstrip (lstrip s).

Definition upper_char (c : ascii) : ascii :=
  let n := N_of_ascii c in
  if ((97 <=? n) && (n <=? 122))%N then ascii_of_N (n - 32) else c.

(** [s.upper()]. *)
Fixpoint upper (s : string) : string :=
  match s with
  | EmptyString => EmptyString
  | String c s' => String (upper_char c) (upper s')
  end.

Definition lower_char (c : ascii) : ascii :=
  let n := N_of_ascii c in
  if ((65 <=? n) && (n <=? 90))%N then ascii_of_N (n + 32) else c.

(** [s.lower()]. *)
Fixpoint lower (s : string) : string :=
  match s with
  | EmptyString => EmptyString
  | String c s' => String (lower_char c) (lower s')
  end.


(** [sep.join(l)]. *)
Fixpoint join (sep : string) (l : list string) : string :=
  match l with
  | [] => EmptyString
  | [x] => x
  | x :: rest => x ++ sep ++ join sep rest
  end.

(** [repr] of a string without quotes or escapes in it, and of a list of
    such strings: ['A', 'A-']. *)
Definition repr (s : string) : string := "'" ++ s ++ "'".

Definition repr_list (l : list string) : string :=
  "[" ++ join ", " (map repr l) ++ "]".


(** One of the 128 ASCII characters. *)
Definition isascii_char (c : ascii) : bool := (N_of_ascii c <? 128)%N.

(** [s.isascii()]. *)
Fixpoint isascii (s : string) : bool :=
  match s with
  | EmptyString => true
  | String c s' => isascii_char c && isascii s'
  end.

End PyStr.

(** ** Python [float]: IEEE 754 binary64 *)

Module PyFloat.

Definition prec : Z := 53.
Definition emax : Z := 1024.

Definition float := spec_float.

Definition add : float -> float -> float := SFadd prec emax.
Definition mul : float -> float -> float := SFmul prec emax.
Definition div : float -> float -> float := SFdiv prec emax.

(** The binary64 number nearest to the fraction [n / d], ties to even. *)
Definition of_ratio (s : bool) (n d : positive) : float :=
  div (S754_finite s n 0) (S754_finite false d 0).

Definition pow10 (k : N) : positive := Z.to_pos (10 ^ Z.of_N k).

(** A decimal literal [digits * 10^-scale], as the parser reads it:
    [dec 375 2] is [3.75]. *)
Definition dec (digits : Z) (scale : N) : float :=
  match digits with
  | Z0 => S754_zero false
  | Zpos p => of_ratio false p (pow10 scale)
  | Zneg p => of_ratio true p (pow10 scale)
  end.

(** [float(n)] for an [int]: correctly rounded; an [int] that rounds
    beyond the largest finite binary64 number raises [OverflowError]. *)
Definition of_int (n : Z) : option float :=
  match binary_normalize prec emax n 0 false with
  | S754_infinity _ => None
  | x => Some x
  end.

Definition is_zero (x : float) : bool :=
  match x with
  | S754_zero _ => true
  | _ => false
  end.

(** [a / b] rounded to the nearest integer, ties to the even one, for
    [0 <= a] and [0 < b]. *)
Definition div_half_even (a b : Z) : Z :=
  let q := a / b in
  match (2 * (a mod b)) ?= b with
  | Lt => q
  | Gt => q + 1
  | Eq => if Z.even q then q else q + 1
  end.

(** [round(x, ndigits)] for a small [0 <= ndigits]: the exact binary
    value of [x] is rounded to [ndigits] decimals, ties to even, and the
    decimal obtained is read back as the nearest binary64 number.
    Zeros, infinities and NaN round to themselves. *)
Definition round (x : float) (ndigits : N) : float :=
  match x with
  | S754_finite s m e =>
      let p := pow10 ndigits in
      let n :=
        if 0 <=? e then Zpos m * Zpos p * 2 ^ e
        else div_half_even (Zpos m * Zpos p) (2 ^ (- e)) in
      match n with
      | Zpos k => of_ratio s k p
      | _ => S754_zero s
      end
  | _ => x
  end.

(** The binary64 number [k / 4], for [k < 2^53]: the mantissa is [k]
    shifted up to 53 bits. *)
Definition q4 (s : bool) (k : positive) : float :=
  let d := Z.log2 (Zpos k) + 1 in
  S754_finite s (Z.to_pos (Zpos k * 2 ^ (53 - d))) (d - 55).

Definition of_quarters (k : Z) : float :=
  match k with
  | Z0 => S754_zero false
  | Zpos p => q4 false p
  | Zneg p => q4 true p
  end.

Definition signed (s : bool) (k : positive) : Z := cond_Zopp s (Zpos k).

(** The location [l] describes the fraction [num / den] in [0, 1). *)
Definition loc_ok (den num : Z) (l : location) : Prop :=
  match l with
  | loc_Exact => num = 0
  | loc_Inexact Lt => 0 < 2 * num < den
  | loc_Inexact Eq => 2 * num = den
  | loc_Inexact Gt => den < 2 * num
  end.

(** A shift record with nothing shifted out yet. *)
Definition exact_rec (m : Z) : shr_record :=
  {| shr_m := m; shr_r := false; shr_s := false |}.

End PyFloat.

(** ** The service *)

Module Acad.

Import PyStr.
Local Open Scope string_scope.

(** *** Exceptions and the result of a handler *)

(** The classes of the other exceptions a handler body can raise. *)
Inductive error_class : Type :=
  | OverflowError
  | ZeroDivisionError
  | DatabaseError
  | TypeError
  | ValueError.

(** What a handler body can raise: FastAPI's [HTTPException], or another
    [Exception] with its class and its [str(e)]. *)
Inductive exn : Type :=
  | HTTPException (status_code : Z) (detail : string)
  | Exception (cls : error_class) (msg : string).

Definition result (A : Type) : Type := (exn + A)%type.

Definition ret {A : Type} (a : A) : result A := inr a.
Definition raise {A : Type} (e : exn) : result A := inl e.

Definition bind {A B : Type} (m : result A) (k : A -> result B) : result B :=
  match m with
  | inl e => inl e
  | inr a => k a
  end.

Notation "x <- m ;; k" := (bind m (fun x => k))
  (at level 61, m at next level, right associativity).

(** [str(e)]: the message of an ordinary exception; for an
    [HTTPException], the status code and the detail. *)
Definition exn_str (e : exn) : string :=
  match e with
  | HTTPException status_code detail =>
      NilZero.string_of_int (Z.to_int status_code) ++ ": " ++ detail
  | Exception _ msg => msg
  end.

(** [try: body / except Exception as e: raise HTTPException(500, str(e))],
    the handler of [get_mahasiswas]. *)
Definition except_exception {A : Type} (body : result A) : result A :=
  match body with
  | inl e => inl (HTTPException 500 (exn_str e))
  | inr a => inr a
  end.

(** [try: body / except HTTPException: raise /
     except Exception as e: raise HTTPException(500, str(e))],
    the handler of [get_ips]. *)
Definition try_except {A : Type} (body : result A) : result A :=
  match body with
  | inl (HTTPException status_code detail) =>
      inl (HTTPException status_code detail)
  | r => except_exception r
  end.

(** The outcome of the [with get_db_connection()] block: the rows that
    [fetchall] returned once the connection committed, or the exception
    that connecting, executing, fetching or committing raised. *)
Inductive fetched (row : Type) : Type :=
  | Rows (rows : list row)
  | DbError (msg : string).
Arguments Rows {row} rows.
Arguments DbError {row} msg.

Definition fetchall {row : Type} (f : fetched row) : result (list row) :=
  match f with
  | Rows rows => ret rows
  | DbError msg => raise (Exception DatabaseError msg)
  end.

(** *** GET /api/acad/mahasiswa *)

(** One row of [SELECT * FROM mahasiswa], by column position. *)
Definition mahasiswa_row : Type := (string * string * string * Z)%type.

(** The JSON object built for one student. *)
Record Mahasiswa : Type := {
  nim : string;
  nama : string;
  jurusan : string;
  angkatan : Z
}.

Definition get_mahasiswas (db : fetched mahasiswa_row)
  : result (list Mahasiswa) :=
  except_exception (
    rows <- fetchall db ;;
    ret (map (fun row : mahasiswa_row =>
                let '(c0, c1, c2, c3) := row in
                {| nim := c0; nama := c1; jurusan := c2; angkatan := c3 |})
             rows)).

(** *** GET /api/acad/ips *)

(** One row of the join: [m.nim, m.nama, m.jurusan, krs.nilai, mk.sks].
    The driver hands text columns over as [str] and integer columns as
    [int], on which [str(row[3])] and [int(row[4])] are the identity.
    Rows whose [mk.sks] is NULL or not a number, on which [int(row[4])]
    raises, are those of [AcadRaw] below. *)
Record krs_row : Type := {
  row_nim : string;
  row_nama : string;
  row_jurusan : string;
  row_nilai : string;
  row_sks : Z
}.

(** A Python [dict] with string keys, in insertion order. *)
Definition dict (V : Type) : Type := list (string * V).

Fixpoint dict_get {V : Type} (d : dict V) (k : string) : option V :=
  match d with
  | [] => None
  | (k', v) :: d' => if String.eqb k k' then Some v else dict_get d' k
  end.

Definition dict_keys {V : Type} (d : dict V) : list string := map fst d.

Definition bobot_nilai : dict PyFloat.float :=
  [ ("A",  PyFloat.dec 40 1);
    ("A-", PyFloat.dec 375 2);
    ("B+", PyFloat.dec 35 1);
    ("B",  PyFloat.dec 30 1);
    ("B-", PyFloat.dec 275 2);
    ("C+", PyFloat.dec 25 1);
    ("C",  PyFloat.dec 20 1);
    ("D",  PyFloat.dec 10 1);
    ("E",  PyFloat.dec 0 1) ].

(** One entry of [detail_perhitungan]. *)
Record detail_row : Type := {
  d_nilai : string;
  d_sks : Z;
  d_bobot : PyFloat.float;
  d_bobot_x_sks : PyFloat.float
}.

(** The JSON object of a successful answer. *)
Record ips_response : Type := {
  r_nim : string;
  r_nama : string;
  r_jurusan : string;
  total_sks : Z;
  total_bobot : PyFloat.float;
  ips : PyFloat.float;
  detail_perhitungan : list detail_row
}.

(** [x * n] with [x] a [float] and [n] an [int]. *)
Definition float_mul_int (x : PyFloat.float) (n : Z) : result PyFloat.float :=
  match PyFloat.of_int n with
  | None => raise (Exception OverflowError "int too large to convert to float")
  | Some y => ret (PyFloat.mul x y)
  end.

(** [x / n] with [x] a [float] and [n] an [int]. *)
Definition float_div_int (x : PyFloat.float) (n : Z) : result PyFloat.float :=
  match PyFloat.of_int n with
  | None => raise (Exception OverflowError "int too large to convert to float")
  | Some y =>
      if PyFloat.is_zero y
      then raise (Exception ZeroDivisionError "float division by zero")
      else ret (PyFloat.div x y)
  end.

Definition invalid_grade (nilai_huruf : string) : exn :=
  HTTPException 400
    ("Nilai '" ++ nilai_huruf ++ "' tidak dikenali. Harus salah satu: "
       ++ repr_list (dict_keys bobot_nilai)).

(** The local variables that the [for] loop updates. *)
Record loop_state : Type := {
  st_total_sks : Z;
  st_total_bobot : PyFloat.float;
  st_detail : list detail_row
}.

(** The body of [for row in rows], from the state before the row to the
    state after it. *)
Definition loop_body (st : loop_state) (row : krs_row) : result loop_state :=
  let nilai_huruf := upper (strip (row_nilai row)) in
  let sks := row_sks row in
  match dict_get bobot_nilai nilai_huruf with
  | None => raise (invalid_grade nilai_huruf)
  | Some bobot =>
      prod <- float_mul_int bobot sks ;;
      ret {| st_total_sks := st_total_sks st + sks;
             st_total_bobot := PyFloat.add (st_total_bobot st) prod;
             st_detail := st_detail st ++
               [ {| d_nilai := nilai_huruf;
                    d_sks := sks;
                    d_bobot := bobot;
                    d_bobot_x_sks := PyFloat.round prod 2 |} ] |}
  end.

Fixpoint loop (rows : list krs_row) (st : loop_state) : result loop_state :=
  match rows with
  | [] => ret st
  | row :: rest => st' <- loop_body st row ;; loop rest st'
  end.

Definition init_state : loop_state :=
  {| st_total_sks := 0; st_total_bobot := PyFloat.dec 0 1; st_detail := [] |}.

Definition not_found (nim : string) : exn :=
  HTTPException 404 ("Data KRS untuk NIM " ++ nim ++ " tidak ditemukan").

Definition zero_sks : exn :=
  HTTPException 400 "Total SKS = 0, IPS tidak bisa dihitung".

(** The statements inside the [try]. *)
Definition get_ips_body (nim : string) (db : fetched krs_row)
  : result ips_response :=
  rows <- fetchall db ;;
  match rows with
  | [] => raise (not_found nim)
  | row0 :: _ =>
      st <- loop rows init_state ;;
      if (st_total_sks st =? 0)%Z then raise zero_sks
      else
        ips <- float_div_int (st_total_bobot st) (st_total_sks st) ;;
        ret {| r_nim := row_nim row0;
               r_nama := row_nama row0;
               r_jurusan := row_jurusan row0;
               total_sks := st_total_sks st;
               total_bobot := PyFloat.round (st_total_bobot st) 2;
               ips := PyFloat.round ips 2;
               detail_perhitungan := st_detail st |}
  end.

Definition get_ips (nim : string) (db : fetched krs_row)
  : result ips_response :=
  try_except (get_ips_body nim db).

(** *** The quantities the specification speaks of *)

(** Trimmed and uppercased grade token. *)
Definition normalize (token : string) : string := upper (strip token).

(** The Grade Weight Table in hundredths of a quality point. *)
Definition grade_weight_table : dict Z :=
  [ ("A", 400); ("A-", 375); ("B+", 350); ("B", 300); ("B-", 275);
    ("C+", 250); ("C", 200); ("D", 100); ("E", 0) ]%Z.

Definition valid_grade (row : krs_row) : Prop :=
  In (normalize (row_nilai row)) (dict_keys grade_weight_table).

(** The stored grade token is ASCII text. *)
Definition ascii_grade (row : krs_row) : Prop :=
  isascii (row_nilai row) = true.


(** [float(sks)] is defined: the credit hours do not overflow binary64. *)
Definition convertible (n : Z) : Prop := PyFloat.of_int n <> None.

Definition row_convertible (row : krs_row) : Prop :=
  convertible (row_sks row).

(** Sum of the credit hours, and of their absolute values. *)
Definition sum_sks (rows : list krs_row) : Z :=
  fold_right (fun row acc => row_sks row + acc)%Z 0%Z rows.

Definition sum_abs_sks (rows : list krs_row) : Z :=
  fold_right (fun row acc => Z.abs (row_sks row) + acc)%Z 0%Z rows.

(** Weight times credit hours of one row, in hundredths and in quarters
    of a quality point; every weight of the table is a multiple of 0.25. *)
Definition row_bobot100 (row : krs_row) : Z :=
  match dict_get grade_weight_table (normalize (row_nilai row)) with
  | Some w => (w * row_sks row)%Z
  | None => 0%Z
  end.

Definition sum_bobot100 (rows : list krs_row) : Z :=
  fold_right (fun row acc => row_bobot100 row + acc)%Z 0%Z rows.

Definition row_quarters (row : krs_row) : Z :=
  match dict_get grade_weight_table (normalize (row_nilai row)) with
  | Some w => (w / 25 * row_sks row)%Z
  | None => 0%Z
  end.

Definition sum_quarters (rows : list krs_row) : Z :=
  fold_right (fun row acc => row_quarters row + acc)%Z 0%Z rows.

(** [a / b] to the nearest integer, ties upwards. *)
Definition div_half_up (a b : Z) : Z := ((2 * a + b) / (2 * b))%Z.


(** The unrounded product and the detail record of one row, as the
    specification describes them. *)
Definition row_product (row : krs_row) : option PyFloat.float :=
  match dict_get bobot_nilai (normalize (row_nilai row)),
        PyFloat.of_int (row_sks row) with
  | Some w, Some y => Some (PyFloat.mul w y)
  | _, _ => None
  end.

Definition row_detail (row : krs_row) : option detail_row :=
  match dict_get bobot_nilai (normalize (row_nilai row)),
        row_product row with
  | Some w, Some p =>
      Some {| d_nilai := normalize (row_nilai row);
              d_sks := row_sks row;
              d_bobot := w;
              d_bobot_x_sks := PyFloat.round p 2 |}
  | _, _ => None
  end.

Fixpoint traverse {A B : Type} (f : A -> option B) (l : list A)
  : option (list B) :=
  match l with
  | [] => Some []
  | a :: l' =>
      match f a, traverse f l' with
      | Some b, Some bs => Some (b :: bs)
      | _, _ => None
      end
  end.

(** The running total of quality points, added up without rounding. *)
Definition unrounded_total (products : list PyFloat.float) : PyFloat.float :=
  fold_left PyFloat.add products (PyFloat.dec 0 1).

(** *** Sample rows *)

Definition sample_row (nim nilai : string) (sks : Z) : krs_row :=
  {| row_nim := nim; row_nama := "Budi"; row_jurusan := "Informatika";
     row_nilai := nilai; row_sks := sks |}.

(** Grades B-, B and C over 1, 6 and 3 credit hours: 26.75 / 10. *)
Definition tie_rows : list krs_row :=
  [ sample_row "22004" "B-" 1; sample_row "22004" "B" 6;
    sample_row "22004" "C" 3 ].

(** Grades A and B+ over 3 and 4 credit hours: 26.0 / 7. *)
Definition scenario_rows : list krs_row :=
  [ sample_row "22002" "A" 3; sample_row "22002" "B+" 4 ].

(** Two rows graded E, one of them stored in lower case. *)
Definition e_rows : list krs_row :=
  [ sample_row "22006" "E" 3; sample_row "22006" " e" 2 ].

Definition mahasiswa_of_row (row : mahasiswa_row) : Mahasiswa :=
  {| nim := fst (fst (fst row));
     nama := snd (fst (fst row));
     jurusan := snd (fst row);
     angkatan := snd row |}.

End Acad.

(** ** The connection manager and the handlers around it

    [psycopg2] is outside the repository: which of its calls raise is a
    parameter, and a run is recorded as the list of the calls made and of
    the lines printed. *)

Module AcadIO.

Import PyStr Acad.
Local Open Scope string_scope.

Inductive event : Type :=
  | Connect
  | Commit
  | Rollback
  | Close
  | Stdout (line : string).

(** A computation: the events it caused, and its value or the exception
    it raised. *)
Definition io (A : Type) : Type := (list event * result A)%type.

Definition io_ret {A : Type} (a : A) : io A := ([], inr a).
Definition io_raise {A : Type} (e : exn) : io A := ([], inl e).
Definition lift {A : Type} (r : result A) : io A := ([], r).

Definition io_bind {A B : Type} (m : io A) (k : A -> io B) : io B :=
  match m with
  | (log, inl e) => (log, inl e)
  | (log, inr a) => let '(log', r) := k a in ((log ++ log')%list, r)
  end.

Notation "x <~ m ;; k" := (io_bind m (fun x => k))
  (at level 61, m at next level, right associativity).

(** [try: m / except Exception as e: handler e]. *)
Definition io_except {A : Type} (m : io A) (handler : exn -> io A) : io A :=
  match m with
  | (log, inl e) => let '(log', r) := handler e in ((log ++ log')%list, r)
  | (log, inr a) => (log, inr a)
  end.

(** [try: m / finally: final]: an exception of [final] replaces the
    outcome of [m]. *)
Definition io_finally {A : Type} (m : io A) (final : io unit) : io A :=
  let '(log, r) := m in
  let '(log', rf) := final in
  ((log ++ log')%list,
   match rf with
   | inl e => inl e
   | inr _ => r
   end).

(** What each call of the driver raises, if anything. *)
Record db_faults : Type := {
  on_connect : option string;
  on_commit : option string;
  on_rollback : option string;
  on_close : option string
}.

Definition no_faults : db_faults :=
  {| on_connect := None; on_commit := None;
     on_rollback := None; on_close := None |}.

Definition db_call (c : event) (fault : option string) : io unit :=
  match fault with
  | None => ([c], inr tt)
  | Some msg => ([c], inl (Exception DatabaseError msg))
  end.

Definition print (line : string) : io unit := ([Stdout line], inr tt).

(** [with get_db_connection() as conn: body]. *)
Definition get_db_connection {A : Type} (db : db_faults) (body : io A)
  : io A :=
  _ <~ db_call Connect (on_connect db) ;;
  io_finally
    (io_except
       (x <~ body ;;
        _ <~ db_call Commit (on_commit db) ;;
        io_ret x)
       (fun e => _ <~ db_call Rollback (on_rollback db) ;; io_raise e))
    (db_call Close (on_close db)).

Definition startup_event (db : db_faults) : io unit :=
  io_except
    (get_db_connection db (print "Acad Service: Connected to PostgreSQL"))
    (fun e =>
       print ("Acad Service: PostgreSQL connection error: " ++ exn_str e)).

(** [get_mahasiswas] with its connection: [q] is what creating the
    cursor, executing the query and fetching gave. *)
Definition get_mahasiswas_request (db : db_faults)
    (q : fetched mahasiswa_row) : io (list Mahasiswa) :=
  io_except
    (get_db_connection db
       (rows <~ lift (fetchall q) ;;
        io_ret (map (fun row : mahasiswa_row =>
                       let '(c0, c1, c2, c3) := row in
                       {| nim := c0; nama := c1; jurusan := c2;
                          angkatan := c3 |})
                    rows)))
    (fun e => io_raise (HTTPException 500 (exn_str e))).

(** [get_ips] with its connection: the [with] block only fetches, and
    the statements after it are those of [get_ips_body] on the rows. *)
Definition get_ips_request (db : db_faults) (nim : string)
    (q : fetched krs_row) : io ips_response :=
  let '(log, r) :=
    (rows <~ get_db_connection db (lift (fetchall q)) ;;
     lift (get_ips_body nim (Rows rows))) in
  (log, try_except r).

(** The events that are calls of the driver. *)
Definition is_db_call (ev : event) : bool :=
  match ev with
  | Stdout _ => false
  | _ => true
  end.

Definition is_commit (ev : event) : bool :=
  match ev with
  | Commit => true
  | _ => false
  end.

Definition is_rollback (ev : event) : bool :=
  match ev with
  | Rollback => true
  | _ => false
  end.

Definition is_close (ev : event) : bool :=
  match ev with
  | Close => true
  | _ => false
  end.

(** A body that leaves the connection alone: it only prints. *)
Definition prints_only (log : list event) : Prop :=
  Forall (fun ev => is_db_call ev = false) log.

(** A driver whose [commit] fails. *)
Definition commit_fails : db_faults :=
  {| on_connect := None; on_commit := Some "commit failed";
     on_rollback := None; on_close := None |}.

(** Two rows whose credit hours each fit a float; their total does not. *)
Definition huge_rows : list krs_row :=
  [ sample_row "22008" "A" (2 ^ 1023)%Z; sample_row "22008" "B" (2 ^ 1023)%Z ].

(** Two rows of the same grade, one of them stored with spaces and in
    lower case. *)
Definition uniform_rows : list krs_row :=
  [ sample_row "22010" "B+" 3%Z; sample_row "22010" " b+ " 2%Z ].

End AcadIO.

(** ** Rows as the driver returns them

    [int(row[4])] raises on a column that is NULL ([TypeError]), on text
    that is not a number ([ValueError]) and on an infinite float
    ([OverflowError]); the message is the interpreter's.  [str(row[3])]
    never raises: the grade column is taken after [str]. *)

Module AcadRaw.

Import PyStr Acad.
Local Open Scope string_scope.

(** The column [mk.sks] of one row: a value that [int] converts to [n],
    or a value on which [int] raises. *)
Inductive column : Type :=
  | IntValue (n : Z)
  | NotInt (cls : error_class) (msg : string).

Record raw_row : Type := {
  raw_nim : string;
  raw_nama : string;
  raw_jurusan : string;
  raw_nilai : string;
  raw_sks : column
}.

(** [int(row[4])]. *)
Definition int (c : column) : result Z :=
  match c with
  | IntValue n => ret n
  | NotInt cls msg => raise (Exception cls msg)
  end.

(** The body of [for row in rows]: [int(row[4])] comes before the grade
    is looked up. *)
Definition loop_body (st : loop_state) (row : raw_row) : result loop_state :=
  sks <- int (raw_sks row) ;;
  Acad.loop_body st
    {| row_nim := raw_nim row;
       row_nama := raw_nama row;
       row_jurusan := raw_jurusan row;
       row_nilai := raw_nilai row;
       row_sks := sks |}.

Fixpoint loop (rows : list raw_row) (st : loop_state) : result loop_state :=
  match rows with
  | [] => ret st
  | row :: rest => st' <- loop_body st row ;; loop rest st'
  end.

Definition get_ips_body (nim : string) (db : fetched raw_row)
  : result ips_response :=
  rows <- fetchall db ;;
  match rows with
  | [] => raise (not_found nim)
  | row0 :: _ =>
      st <- loop rows init_state ;;
      if (st_total_sks st =? 0)%Z then raise zero_sks
      else
        ips <- float_div_int (st_total_bobot st) (st_total_sks st) ;;
        ret {| r_nim := raw_nim row0;
               r_nama := raw_nama row0;
               r_jurusan := raw_jurusan row0;
               total_sks := st_total_sks st;
               total_bobot := PyFloat.round (st_total_bobot st) 2;
               ips := PyFloat.round ips 2;
               detail_perhitungan := st_detail st |}
  end.

Definition get_ips (nim : string) (db : fetched raw_row)
  : result ips_response :=
  try_except (get_ips_body nim db).

(** The row once [int(row[4])] has returned, when it does. *)
Definition typed_row (row : raw_row) : option krs_row :=
  match raw_sks row with
  | IntValue n =>
      Some {| row_nim := raw_nim row;
              row_nama := raw_nama row;
              row_jurusan := raw_jurusan row;
              row_nilai := raw_nilai row;
              row_sks := n |}
  | NotInt _ _ => None
  end.

(** The row as the driver returns it, for a row whose [mk.sks] is an
    [int]. *)
Definition raw_of (row : krs_row) : raw_row :=
  {| raw_nim := row_nim row;
     raw_nama := row_nama row;
     raw_jurusan := row_jurusan row;
     raw_nilai := row_nilai row;
     raw_sks := IntValue (row_sks row) |}.

(** A row whose [mk.sks] is NULL and whose grade is not in the table. *)
Definition null_sks_row : raw_row :=
  {| raw_nim := "22012"; raw_nama := "Budi"; raw_jurusan := "Informatika";
     raw_nilai := "F";
     raw_sks := NotInt TypeError
       "int() argument must be a string, a bytes-like object or a real number, not 'NoneType'" |}.

End AcadRaw.

(** * Facts about the string methods *)

Module PyStrFacts.

Import PyStr.
Local Open Scope string_scope.























Lemma length_append (a b : string) :
  String.length (a ++ b) = (String.length a + String.length b)%nat.
Proof.
  induction a as [ | c a IH ]; simpl; [reflexivity|].
  rewrite IH. reflexivity.
Qed.

Lemma append_cancel_r (a b s : string) : a ++ s = b ++ s -> a = b.
Proof.
  revert b. induction a as [ | c a IH ]; intros [ | c' b ] H.
  - reflexivity.
  - apply (f_equal String.length) in H. simpl in H.
    rewrite length_append in H. lia.
  - apply (f_equal String.length) in H. simpl in H.
    rewrite length_append in H. lia.
  - simpl in H. injection H as -> H. f_equal. apply IH. assumption.
Qed.

End PyStrFacts.

(** * Facts about binary64 arithmetic

    Sums and products of multiples of 0.25 stay exact below [2^53]
    quarters, and the conversion of a non-zero [int] is never zero. *)

Module PyFloatFacts.

Import PyFloat.
Local Open Scope Z_scope.

Lemma digits2_pos_size (p : positive) : digits2_pos p = Pos.size p.
Proof. induction p; simpl; congruence. Qed.

Lemma Zdigits2_log2 (p : positive) : Zdigits2 (Zpos p) = Z.log2 (Zpos p) + 1.
Proof.
  unfold Zdigits2. rewrite digits2_pos_size.
  destruct p; simpl; try reflexivity; rewrite Pos.add_1_r; reflexivity.
Qed.

Lemma Zdigits2_bounds (p : positive) (d : Z) :
  2 ^ (d - 1) <= Zpos p < 2 ^ d -> Zdigits2 (Zpos p) = d.
Proof.
  intros H. rewrite Zdigits2_log2.
  assert (0 <= d - 1).
  { destruct (Z.le_gt_cases 0 (d - 1)) as [|Hn]; [assumption|].
    assert (d <= 0) by lia.
    assert (2 ^ d <= 2 ^ 0) by (apply Z.pow_le_mono_r; lia).
    simpl in *. lia. }
  rewrite (Z.log2_unique (Zpos p) (d - 1)); try lia.
  replace (Z.succ (d - 1)) with d by lia. assumption.
Qed.

Lemma shr_1_double (x : positive) :
  shr_1 (exact_rec (Zpos x~0)) = exact_rec (Zpos x).
Proof. reflexivity. Qed.

Lemma pow2_xO (p : positive) : 2 ^ Zpos p~0 = 2 ^ Zpos p * 2 ^ Zpos p.
Proof.
  replace (Zpos p~0) with (Zpos p + Zpos p) by lia.
  apply Z.pow_add_r; lia.
Qed.

Lemma pow2_xI (p : positive) : 2 ^ Zpos p~1 = 2 * (2 ^ Zpos p * 2 ^ Zpos p).
Proof.
  replace (Zpos p~1) with (1 + (Zpos p + Zpos p)) by lia.
  rewrite Z.pow_add_r, Z.pow_add_r by lia. reflexivity.
Qed.

Lemma pos_mul_pow2 (x p : positive) :
  Zpos (x * 2 ^ p) = Zpos x * 2 ^ Zpos p.
Proof. rewrite Pos2Z.inj_mul, Pos2Z.inj_pow. reflexivity. Qed.

Lemma iter_pos_shr_exact (p : positive) :
  forall x : positive,
    iter_pos shr_1 p (exact_rec (Zpos x * 2 ^ Zpos p)) = exact_rec (Zpos x).
Proof.
  induction p as [p IH | p IH | ]; intros x; cbn [iter_pos].
  - replace (Zpos x * 2 ^ Zpos p~1) with (Zpos (x * 2 ^ p * 2 ^ p)~0)
      by (rewrite pow2_xI, Pos2Z.inj_xO, !pos_mul_pow2; ring).
    rewrite shr_1_double, pos_mul_pow2, IH, pos_mul_pow2. apply IH.
  - replace (Zpos x * 2 ^ Zpos p~0) with (Zpos (x * 2 ^ p) * 2 ^ Zpos p)
      by (rewrite pow2_xO, pos_mul_pow2; ring).
    rewrite IH, pos_mul_pow2. apply IH.
  - rewrite Z.pow_1_r. replace (Zpos x * 2) with (Zpos x~0) by lia.
    apply shr_1_double.
Qed.

Lemma pow2_lt_inv (a b : Z) : 0 <= a -> 2 ^ a < 2 ^ b -> a < b.
Proof.
  intros Ha H. destruct (Z.lt_ge_cases a b) as [|Hge]; [assumption|].
  assert (2 ^ b <= 2 ^ a) by (apply Z.pow_le_mono_r; lia). lia.
Qed.

Lemma pow2_scale_bounds (x n d : Z) :
  0 <= n -> 0 < x ->
  2 ^ (d - 1) <= x * 2 ^ n < 2 ^ d ->
  2 ^ (d - n - 1) <= x < 2 ^ (d - n).
Proof.
  intros Hn Hx [Hlo Hhi].
  assert (Hp : 0 < 2 ^ n) by (apply Z.pow_pos_nonneg; lia).
  assert (Hnd : n < d).
  { apply pow2_lt_inv; [assumption|]. nia. }
  replace d with ((d - n) + n) in Hhi at 1 by lia.
  replace (d - 1) with ((d - n - 1) + n) in Hlo by lia.
  rewrite Z.pow_add_r in Hhi, Hlo by lia.
  split.
  - apply (Z.mul_le_mono_pos_r _ _ (2 ^ n)); assumption.
  - apply (Z.mul_lt_mono_pos_r (2 ^ n)); assumption.
Qed.

Lemma pow2_scale_up (x n d D : Z) :
  0 <= n -> 1 <= d -> D = d + n ->
  2 ^ (d - 1) <= x < 2 ^ d ->
  2 ^ (D - 1) <= x * 2 ^ n < 2 ^ D.
Proof.
  intros Hn Hd -> [Hlo Hhi].
  assert (Hp : 0 < 2 ^ n) by (apply Z.pow_pos_nonneg; lia).
  replace (d + n - 1) with ((d - 1) + n) by lia.
  rewrite !Z.pow_add_r by lia. nia.
Qed.

Lemma shr_fexp_exact (m x : positive) (e d fx : Z) :
  2 ^ (d - 1) <= Zpos m < 2 ^ d ->
  fx = fexp prec emax (d + e) -> e <= fx ->
  Zpos m = Zpos x * 2 ^ (fx - e) ->
  shr_fexp prec emax (Zpos m) e loc_Exact = (exact_rec (Zpos x), fx).
Proof.
  intros Hd Hfx Hle Hm. unfold shr_fexp.
  rewrite (Zdigits2_bounds m d Hd), <- Hfx.
  change (shr_record_of_loc (Zpos m) loc_Exact) with (exact_rec (Zpos m)).
  destruct (fx - e) as [ | p | p ] eqn:Hn; try lia.
  - simpl. rewrite Hm, Z.pow_0_r, Z.mul_1_r. f_equal. lia.
  - unfold shr. rewrite Hm, iter_pos_shr_exact. f_equal. lia.
Qed.

Lemma binary_round_aux_exact (s : bool) (m x : positive) (e d fx : Z) :
  2 ^ (d - 1) <= Zpos m < 2 ^ d ->
  fx = fexp prec emax (d + e) -> e <= fx -> fx <= emax - prec ->
  Zpos m = Zpos x * 2 ^ (fx - e) ->
  binary_round_aux prec emax s (Zpos m) e loc_Exact = S754_finite s x fx.
Proof.
  intros Hd Hfx Hle Hmax Hm. unfold binary_round_aux.
  rewrite (shr_fexp_exact m x e d fx Hd Hfx Hle Hm).
  cbn [exact_rec shr_m loc_of_shr_record round_nearest_even].
  assert (Hp : 0 < 2 ^ (fx - e)) by (apply Z.pow_pos_nonneg; lia).
  assert (Hdx : 2 ^ (d - (fx - e) - 1) <= Zpos x < 2 ^ (d - (fx - e))).
  { apply pow2_scale_bounds; lia. }
  rewrite (shr_fexp_exact x x fx (d - (fx - e)) fx Hdx).
  - cbn [exact_rec shr_m]. apply Z.leb_le in Hmax. rewrite Hmax. reflexivity.
  - rewrite Hfx. f_equal. lia.
  - lia.
  - rewrite Z.sub_diag, Z.pow_0_r. lia.
Qed.

Lemma log2_digits (k : positive) :
  2 ^ (Z.log2 (Zpos k) + 1 - 1) <= Zpos k < 2 ^ (Z.log2 (Zpos k) + 1).
Proof.
  replace (Z.log2 (Zpos k) + 1 - 1) with (Z.log2 (Zpos k)) by lia.
  apply Z.log2_spec. lia.
Qed.

Lemma log2_small (k : positive) : Zpos k < 2 ^ 53 -> Z.log2 (Zpos k) + 1 <= 53.
Proof.
  intros H. assert (Z.log2 (Zpos k) < 53); [|lia].
  apply Z.log2_lt_pow2; lia.
Qed.

Lemma iter_xO_pow2 (m p : positive) :
  Zpos (Pos.iter xO m p) = Zpos m * 2 ^ Zpos p.
Proof.
  induction p as [ | p IH ] using Pos.peano_ind.
  - change (Pos.iter xO m 1) with (m~0)%positive. change (2 ^ 1) with 2. lia.
  - rewrite Pos.iter_succ, Pos2Z.inj_xO, IH, Pos2Z.inj_succ, Z.pow_succ_r by lia.
    ring.
Qed.

Lemma pow2_split (a u v w : Z) :
  0 <= u -> 0 <= v -> w = u + v -> a * 2 ^ w = a * 2 ^ u * 2 ^ v.
Proof. intros Hu Hv ->. rewrite Z.pow_add_r by lia. ring. Qed.

Lemma to_pos_mul_pow2 (k : positive) (n : Z) :
  0 <= n -> Zpos (Z.to_pos (Zpos k * 2 ^ n)) = Zpos k * 2 ^ n.
Proof.
  intros Hn. apply Z2Pos.id.
  assert (0 < 2 ^ n) by (apply Z.pow_pos_nonneg; lia). nia.
Qed.

Lemma q4_fexp (d e : Z) : 1 <= d -> fexp prec emax (d + (- 2 - e) + e) = d - 55.
Proof. intros. unfold fexp, emin, prec, emax. lia. Qed.

(** Rounding [m * 2^e], already equal to some [k / 4] with [k < 2^53],
    returns the canonical representation of [k / 4]. *)
Lemma binary_round_aux_quarters (s : bool) (m k : positive) (e : Z) :
  Zpos k < 2 ^ 53 -> e <= Z.log2 (Zpos k) + 1 - 55 ->
  Zpos m = Zpos k * 2 ^ (- 2 - e) ->
  binary_round_aux prec emax s (Zpos m) e loc_Exact = q4 s k.
Proof.
  intros Hk He Hm. unfold q4.
  pose proof (log2_digits k) as Hd. pose proof (log2_small k Hk) as Hd53.
  assert (H0 : 0 <= Z.log2 (Zpos k)) by apply Z.log2_nonneg.
  set (d := Z.log2 (Zpos k) + 1) in *.
  assert (Hdm : 2 ^ (d + (- 2 - e) - 1) <= Zpos m < 2 ^ (d + (- 2 - e))).
  { rewrite Hm. apply (pow2_scale_up _ _ d); lia. }
  pose proof (to_pos_mul_pow2 k (53 - d) ltac:(lia)) as Hx.
  apply (binary_round_aux_exact s m _ e (d + (- 2 - e)) (d - 55) Hdm).
  - rewrite q4_fexp; lia.
  - lia.
  - unfold prec, emax. lia.
  - rewrite Hx, Hm. apply pow2_split; lia.
Qed.

Lemma binary_round_quarters (s : bool) (m k : positive) (e : Z) :
  Zpos k < 2 ^ 53 -> e <= -2 ->
  Zpos m = Zpos k * 2 ^ (- 2 - e) ->
  binary_round prec emax s m e = q4 s k.
Proof.
  intros Hk He Hm. unfold binary_round.
  pose proof (log2_digits k) as Hd. pose proof (log2_small k Hk) as Hd53.
  assert (H0 : 0 <= Z.log2 (Zpos k)) by apply Z.log2_nonneg.
  assert (Hdm : 2 ^ (Z.log2 (Zpos k) + 1 + (- 2 - e) - 1) <= Zpos m
                < 2 ^ (Z.log2 (Zpos k) + 1 + (- 2 - e))).
  { rewrite Hm. apply (pow2_scale_up _ _ (Z.log2 (Zpos k) + 1)); lia. }
  change (Zpos (digits2_pos m)) with (Zdigits2 (Zpos m)).
  rewrite (Zdigits2_bounds m _ Hdm), q4_fexp by lia. unfold shl_align.
  destruct (Z.log2 (Zpos k) + 1 - 55 - e) as [ | p | p ] eqn:Hn.
  - apply binary_round_aux_quarters; try assumption; lia.
  - apply binary_round_aux_quarters; try assumption; lia.
  - apply binary_round_aux_quarters; try assumption; try lia.
    rewrite iter_xO_pow2, Hm. symmetry. apply pow2_split; lia.
Qed.

Lemma binary_round_int (s : bool) (m : positive) :
  Zpos m < 2 ^ 51 -> binary_round prec emax s m 0 = q4 s (4 * m).
Proof.
  intros Hm. unfold binary_round.
  assert (H4 : Zpos (4 * m) < 2 ^ 53) by lia.
  pose proof (log2_digits (4 * m)) as Hd. pose proof (log2_small _ H4) as Hd53.
  assert (Hl : Z.log2 (Zpos (4 * m)) = Z.log2 (Zpos m) + 2).
  { replace (Zpos (4 * m)) with (Zpos m * 2 ^ 2) by lia.
    rewrite Z.log2_mul_pow2; lia. }
  pose proof (log2_digits m) as Hdm.
  assert (H0 : 0 <= Z.log2 (Zpos m)) by apply Z.log2_nonneg.
  change (Zpos (digits2_pos m)) with (Zdigits2 (Zpos m)).
  rewrite (Zdigits2_bounds m _ Hdm).
  assert (Hfx : fexp prec emax (Z.log2 (Zpos m) + 1 + 0) = Z.log2 (Zpos m) - 52).
  { unfold fexp, emin, prec, emax. lia. }
  rewrite Hfx. unfold shl_align.
  destruct (Z.log2 (Zpos m) - 52 - 0) as [ | p | p ] eqn:Hn; try lia.
  apply binary_round_aux_quarters; try assumption; try lia.
  rewrite iter_xO_pow2, Pos2Z.inj_mul.
  replace (Zpos 4) with (2 ^ 2) by reflexivity.
  rewrite Z.mul_comm with (n := 2 ^ 2),
    <- pow2_split with (w := Zpos p) (a := Zpos m); lia.
Qed.

Lemma of_int_quarters (z : Z) :
  Z.abs z < 2 ^ 51 -> of_int z = Some (of_quarters (4 * z)).
Proof.
  intros Hz. unfold of_int, binary_normalize.
  destruct z as [ | p | p ]; try reflexivity.
  - rewrite binary_round_int by lia. reflexivity.
  - rewrite binary_round_int by lia. reflexivity.
Qed.

Lemma q4_mantissa (k : positive) :
  Zpos k < 2 ^ 53 ->
  Zpos (Z.to_pos (Zpos k * 2 ^ (53 - (Z.log2 (Zpos k) + 1))))
  = Zpos k * 2 ^ (53 - (Z.log2 (Zpos k) + 1)).
Proof.
  intros Hk. apply to_pos_mul_pow2. pose proof (log2_small k Hk). lia.
Qed.

(** A weight [a / 4] times the integer [z], as long as the product is
    below [2^53] quarters. *)
Lemma mul_q4 (sa sb : bool) (a z : positive) :
  Zpos a < 2 ^ 53 -> Zpos z < 2 ^ 51 -> Zpos (a * z) < 2 ^ 53 ->
  mul (q4 sa a) (q4 sb (4 * z)) = q4 (xorb sa sb) (a * z).
Proof.
  intros Ha Hz Haz. unfold mul, q4 at 1 2, SFmul.
  assert (H4 : Zpos (4 * z) < 2 ^ 53) by lia.
  pose proof (log2_small a Ha) as Hda. pose proof (log2_small _ H4) as Hdz.
  pose proof (Z.log2_nonneg (Zpos a)). pose proof (Z.log2_nonneg (Zpos z)).
  assert (Hl : Z.log2 (Zpos (4 * z)) = Z.log2 (Zpos z) + 2).
  { replace (Zpos (4 * z)) with (Zpos z * 2 ^ 2) by lia.
    rewrite Z.log2_mul_pow2; lia. }
  assert (Hlm : Z.log2 (Zpos a) + Z.log2 (Zpos z) <= Z.log2 (Zpos (a * z))).
  { rewrite Pos2Z.inj_mul. apply Z.log2_mul_below; lia. }
  apply binary_round_aux_quarters; try assumption; try lia.
  rewrite Pos2Z.inj_mul, (q4_mantissa a Ha), (q4_mantissa _ H4).
  set (la := Z.log2 (Zpos a)) in *. set (lz := Z.log2 (Zpos (4 * z))) in *.
  replace (- 2 - (la + 1 - 55 + (lz + 1 - 55)))
    with (2 + ((53 - (la + 1)) + (53 - (lz + 1)))) by lia.
  rewrite !Z.pow_add_r by lia.
  change (2 ^ 2) with 4. rewrite !Pos2Z.inj_mul. ring.
Qed.

Lemma shl_align_fst (m : positive) (e ez : Z) :
  ez <= e -> Zpos (fst (shl_align m e ez)) = Zpos m * 2 ^ (e - ez).
Proof.
  intros H. unfold shl_align.
  destruct (ez - e) as [ | p | p ] eqn:Hn; try lia; cbn [fst].
  - replace (e - ez) with 0 by lia. rewrite Z.pow_0_r. lia.
  - rewrite iter_xO_pow2. f_equal. f_equal. lia.
Qed.

Lemma q4_aligned (k : positive) (ez : Z) :
  Zpos k < 2 ^ 53 -> ez <= Z.log2 (Zpos k) + 1 - 55 ->
  Zpos (fst (shl_align (Z.to_pos (Zpos k * 2 ^ (53 - (Z.log2 (Zpos k) + 1))))
                       (Z.log2 (Zpos k) + 1 - 55) ez))
  = Zpos k * 2 ^ (- 2 - ez).
Proof.
  intros Hk Hez. pose proof (log2_small k Hk).
  rewrite shl_align_fst, q4_mantissa by assumption.
  symmetry. apply pow2_split; lia.
Qed.

Lemma binary_normalize_quarters (n k e : Z) :
  Z.abs k < 2 ^ 53 -> e <= -2 -> n = k * 2 ^ (- 2 - e) ->
  binary_normalize prec emax n e false = of_quarters k.
Proof.
  intros Hk He Hn.
  assert (Hp : 0 < 2 ^ (- 2 - e)) by (apply Z.pow_pos_nonneg; lia).
  unfold binary_normalize, of_quarters.
  destruct k as [ | k | k ]; destruct n as [ | m | m ]; try nia.
  - reflexivity.
  - apply binary_round_quarters; lia.
  - apply binary_round_quarters; lia.
Qed.

Lemma of_quarters_signed (s : bool) (k : positive) :
  of_quarters (signed s k) = q4 s k.
Proof. destruct s; reflexivity. Qed.

Lemma add_q4 (sa sb : bool) (a b : positive) :
  Zpos a < 2 ^ 53 -> Zpos b < 2 ^ 53 ->
  Z.abs (signed sa a + signed sb b) < 2 ^ 53 ->
  add (q4 sa a) (q4 sb b) = of_quarters (signed sa a + signed sb b).
Proof.
  intros Ha Hb Hab. unfold add, q4, SFadd.
  pose proof (log2_small a Ha). pose proof (log2_small b Hb).
  set (ea := Z.log2 (Zpos a) + 1 - 55). set (eb := Z.log2 (Zpos b) + 1 - 55).
  apply binary_normalize_quarters; try assumption; try lia.
  unfold ea, eb. rewrite !q4_aligned by (try assumption; lia).
  unfold signed. destruct sa, sb; cbn [cond_Zopp]; ring.
Qed.

Lemma add_of_quarters (x y : Z) :
  Z.abs x < 2 ^ 53 -> Z.abs y < 2 ^ 53 -> Z.abs (x + y) < 2 ^ 53 ->
  add (of_quarters x) (of_quarters y) = of_quarters (x + y).
Proof.
  intros Hx Hy Hxy.
  destruct x as [ | a | a ]; destruct y as [ | b | b ]; try reflexivity.
  - apply (add_q4 false false a b); assumption.
  - apply (add_q4 false true a b); assumption.
  - apply (add_q4 true false a b); assumption.
  - apply (add_q4 true true a b); assumption.
Qed.

Lemma div_eucl_multiple (q d : Z) : 0 < d -> Z.div_eucl (q * d) d = (q, 0).
Proof.
  intros Hd.
  assert (H : Z.div_eucl (q * d) d = ((q * d) / d, (q * d) mod d)).
  { unfold Z.div, Z.modulo. destruct (Z.div_eucl (q * d) d). reflexivity. }
  rewrite H, Z.div_mul, Z.mod_mul by lia. reflexivity.
Qed.

Lemma new_location_zero (d : Z) : new_location d 0 = loc_Exact.
Proof.
  unfold new_location, new_location_even, new_location_odd.
  destruct (Z.even d); reflexivity.
Qed.

(** A fraction [n / d] that equals [k / 4] exactly, [k < 2^53], is
    divided without rounding. *)
Lemma of_ratio_quarters (s : bool) (n d k : positive) :
  (4 * Zpos n = Zpos k * Zpos d) -> Zpos k < 2 ^ 53 ->
  of_ratio s n d = q4 s k.
Proof.
  intros Hv Hk. unfold of_ratio, div, SFdiv, SFdiv_core_binary.
  rewrite xorb_false_r, !Zdigits2_log2.
  pose proof (log2_small k Hk) as Hlk.
  pose proof (Z.log2_nonneg (Zpos k)). pose proof (Z.log2_nonneg (Zpos d)).
  pose proof (Z.log2_nonneg (Zpos n)).
  assert (Hl : Z.log2 (Zpos n) + 2 <= Z.log2 (Zpos k) + Z.log2 (Zpos d) + 1).
  { pose proof (Z.log2_mul_pow2 (Zpos n) 2 ltac:(lia) ltac:(lia)) as H2.
    replace (Zpos n * 2 ^ 2) with (Zpos k * Zpos d) in H2 by lia.
    pose proof (Z.log2_mul_above (Zpos k) (Zpos d) ltac:(lia) ltac:(lia)).
    lia. }
  set (e' := Z.min (fexp prec emax (Z.log2 (Zpos n) + 1 + 0
                                     - (Z.log2 (Zpos d) + 1 + 0))) (0 - 0)).
  assert (He' : e' <= Z.log2 (Zpos k) + 1 - 55).
  { unfold e', fexp, emin, prec, emax. lia. }
  destruct (0 - 0 - e') as [ | p | p ] eqn:Hs; try lia.
  rewrite Z.shiftl_mul_pow2 by lia.
  replace (Zpos n * 2 ^ Zpos p) with (Zpos k * 2 ^ (- 2 - e') * Zpos d).
  - rewrite div_eucl_multiple, new_location_zero by lia.
    assert (Hq : 0 < Zpos k * 2 ^ (- 2 - e')).
    { assert (0 < 2 ^ (- 2 - e')) by (apply Z.pow_pos_nonneg; lia). nia. }
    destruct (Zpos k * 2 ^ (- 2 - e')) as [ | q | q ] eqn:Hqe; try lia.
    apply binary_round_aux_quarters; try assumption. lia.
  - replace (Zpos p) with (2 + (- 2 - e')) by lia.
    rewrite Z.pow_add_r by lia. change (2 ^ 2) with 4. nia.
Qed.

Lemma dec_quarters (k : Z) :
  Z.abs k < 2 ^ 53 -> dec (25 * k) 2 = of_quarters k.
Proof.
  intros Hk. destruct k as [ | k | k ]; try reflexivity.
  - change (dec (25 * Zpos k) 2) with (of_ratio false (25 * k) 100).
    apply of_ratio_quarters; lia.
  - change (dec (25 * Zneg k) 2) with (of_ratio true (25 * k) 100).
    apply of_ratio_quarters; lia.
Qed.

Lemma dec_int (z : Z) :
  Z.abs z < 2 ^ 51 -> dec z 0 = of_quarters (4 * z).
Proof.
  intros Hz. destruct z as [ | z | z ]; try reflexivity.
  - change (dec (Zpos z) 0) with (of_ratio false z 1).
    apply of_ratio_quarters; lia.
  - change (dec (Zneg z) 0) with (of_ratio true z 1).
    apply of_ratio_quarters; lia.
Qed.

Lemma div_half_even_multiple (q d : Z) : 0 < d -> div_half_even (q * d) d = q.
Proof.
  intros Hd. unfold div_half_even.
  rewrite Z.div_mul, Z.mod_mul by lia.
  destruct (Z.compare_spec (2 * 0) d); lia.
Qed.

Lemma round_q4 (s : bool) (k : positive) :
  Zpos k < 2 ^ 53 -> round (q4 s k) 2 = q4 s k.
Proof.
  intros Hk. unfold round, q4 at 1.
  pose proof (log2_small k Hk) as Hlk.
  pose proof (Z.log2_nonneg (Zpos k)).
  set (d := Z.log2 (Zpos k) + 1) in *.
  destruct (Z.leb_spec 0 (d - 55)) as [Hc|Hc]; try lia.
  rewrite to_pos_mul_pow2 by lia.
  change (Zpos (pow10 2)) with 100.
  replace (Zpos k * 2 ^ (53 - d) * 100)
    with (25 * Zpos k * 2 ^ (- (d - 55))).
  - rewrite div_half_even_multiple by (apply Z.pow_pos_nonneg; lia).
    change (25 * Zpos k) with (Zpos (25 * k)).
    apply of_ratio_quarters; try assumption.
    change (pow10 2) with 100%positive. lia.
  - replace (- (d - 55)) with (2 + (53 - d)) by lia.
    rewrite Z.pow_add_r by lia. change (2 ^ 2) with 4. ring.
Qed.

Lemma round_of_quarters (k : Z) :
  Z.abs k < 2 ^ 53 -> round (of_quarters k) 2 = of_quarters k.
Proof.
  intros Hk. destruct k as [ | k | k ]; try reflexivity; apply round_q4; lia.
Qed.

Lemma shr_1_m (r : shr_record) :
  0 <= shr_m r -> shr_m (shr_1 r) = shr_m r / 2.
Proof.
  destruct r as [m r s]. cbn [shr_m]. intros Hm.
  destruct m as [ | [ p | p | ] | p ]; try lia; cbn [shr_1 shr_m].
  - reflexivity.
  - rewrite Pos2Z.inj_xI. apply (Z.div_unique _ _ _ 1); lia.
  - rewrite Pos2Z.inj_xO. apply (Z.div_unique _ _ _ 0); lia.
  - reflexivity.
Qed.

Lemma iter_pos_shr_m (p : positive) :
  forall r : shr_record,
    0 <= shr_m r -> shr_m (iter_pos shr_1 p r) = shr_m r / 2 ^ Zpos p.
Proof.
  induction p as [p IH | p IH | ]; intros r Hr; cbn [iter_pos].
  - assert (H1 : 0 <= shr_m (shr_1 r)).
    { rewrite shr_1_m by assumption. apply Z.div_pos; lia. }
    assert (Hp : 0 < 2 ^ Zpos p) by (apply Z.pow_pos_nonneg; lia).
    assert (H2 : 0 <= shr_m (iter_pos shr_1 p (shr_1 r))).
    { rewrite IH by assumption. apply Z.div_pos; lia. }
    rewrite IH, IH, shr_1_m, !Z.div_div, pow2_xI by lia. reflexivity.
  - assert (Hp : 0 < 2 ^ Zpos p) by (apply Z.pow_pos_nonneg; lia).
    assert (H2 : 0 <= shr_m (iter_pos shr_1 p r)).
    { rewrite IH by assumption. apply Z.div_pos; lia. }
    rewrite IH, IH, !Z.div_div, pow2_xO by lia. reflexivity.
  - rewrite shr_1_m by assumption. reflexivity.
Qed.

Lemma shr_record_of_loc_m (m : Z) (l : location) :
  shr_m (shr_record_of_loc m l) = m.
Proof. destruct l as [ | [ | | ] ]; reflexivity. Qed.

Lemma log2_div_pow2 (m n : Z) :
  0 < m -> 0 <= n <= Z.log2 m ->
  0 < m / 2 ^ n /\ Z.log2 (m / 2 ^ n) = Z.log2 m - n.
Proof.
  intros Hm Hn.
  assert (Hp : 0 < 2 ^ n) by (apply Z.pow_pos_nonneg; lia).
  assert (Hle : 2 ^ n <= m).
  { apply Z.le_trans with (2 ^ Z.log2 m).
    - apply Z.pow_le_mono_r; lia.
    - apply Z.log2_spec; assumption. }
  split.
  - apply Z.div_str_pos; lia.
  - rewrite <- Z.shiftr_div_pow2, Z.log2_shiftr by lia. lia.
Qed.

(** A right shift to the working exponent keeps a positive mantissa
    positive as long as the number lies above the smallest subnormal. *)
Lemma shr_fexp_pos (m e : Z) (l : location) :
  0 < m -> - 1074 < Z.log2 m + 1 + e ->
  exists r e',
    shr_fexp prec emax m e l = (r, e') /\
    0 < shr_m r /\ Z.log2 m + e <= Z.log2 (shr_m r) + e'.
Proof.
  intros Hm Hlow. unfold shr_fexp, shr.
  destruct m as [ | m | m ]; try lia.
  rewrite Zdigits2_log2.
  pose proof (Z.log2_nonneg (Zpos m)) as H0.
  destruct (fexp prec emax (Z.log2 (Zpos m) + 1 + e) - e) as [ | p | p ] eqn:Hn.
  - eexists. eexists. split; [reflexivity|].
    rewrite shr_record_of_loc_m. lia.
  - assert (Hp : Zpos p <= Z.log2 (Zpos m)).
    { unfold fexp, emin, prec, emax in Hn. lia. }
    destruct (log2_div_pow2 (Zpos m) (Zpos p)) as [Hq Hlq]; try lia.
    eexists. eexists. split; [reflexivity|].
    rewrite iter_pos_shr_m, shr_record_of_loc_m
      by (rewrite shr_record_of_loc_m; lia).
    lia.
  - eexists. eexists. split; [reflexivity|].
    rewrite shr_record_of_loc_m. lia.
Qed.

Lemma round_nearest_even_ge (x : Z) (l : location) :
  x <= round_nearest_even x l.
Proof.
  unfold round_nearest_even.
  destruct l as [ | [ | | ] ]; try lia. destruct (Z.even x); lia.
Qed.

Lemma binary_round_aux_nonzero (s : bool) (m e : Z) (l : location) :
  0 < m -> - 1074 < Z.log2 m + 1 + e ->
  (exists x ex, binary_round_aux prec emax s m e l = S754_finite s x ex)
  \/ binary_round_aux prec emax s m e l = S754_infinity s.
Proof.
  intros Hm Hlow. unfold binary_round_aux.
  destruct (shr_fexp_pos m e l Hm Hlow) as (r1 & e1 & -> & Hr1 & Hl1).
  pose proof (round_nearest_even_ge (shr_m r1) (loc_of_shr_record r1)) as Hge.
  set (m1 := round_nearest_even (shr_m r1) (loc_of_shr_record r1)) in *.
  assert (Hl : Z.log2 (shr_m r1) <= Z.log2 m1) by (apply Z.log2_le_mono; lia).
  destruct (shr_fexp_pos m1 e1 loc_Exact) as (r2 & e2 & -> & Hr2 & _); try lia.
  destruct (shr_m r2) as [ | x | x ]; try lia.
  destruct (e2 <=? emax - prec).
  - left. eexists. eexists. reflexivity.
  - right. reflexivity.
Qed.

Lemma shl_align_log2 (m : positive) (e ex : Z) :
  Z.log2 (Zpos (fst (shl_align m e ex))) + snd (shl_align m e ex)
  = Z.log2 (Zpos m) + e.
Proof.
  unfold shl_align.
  destruct (ex - e) as [ | p | p ] eqn:Hn; cbn [fst snd]; try reflexivity.
  rewrite iter_xO_pow2, Z.log2_mul_pow2 by lia. lia.
Qed.

Lemma binary_round_nonzero (s : bool) (m : positive) :
  (exists x ex, binary_round prec emax s m 0 = S754_finite s x ex)
  \/ binary_round prec emax s m 0 = S754_infinity s.
Proof.
  unfold binary_round.
  pose proof (shl_align_log2 m 0 (fexp prec emax (Zpos (digits2_pos m) + 0)))
    as Hal.
  destruct (shl_align m 0 (fexp prec emax (Zpos (digits2_pos m) + 0)))
    as [mz ez].
  cbn [fst snd] in Hal. pose proof (Z.log2_nonneg (Zpos m)).
  apply binary_round_aux_nonzero; lia.
Qed.

(** [float(n)] of a non-zero [int] is a non-zero number of the same sign,
    unless it overflows. *)
Lemma of_int_nonzero (n : Z) (y : float) :
  n <> 0 -> of_int n = Some y ->
  exists x ex, y = S754_finite (n <? 0) x ex.
Proof.
  intros Hn. unfold of_int, binary_normalize.
  destruct n as [ | m | m ]; try lia.
  - change (Zpos m <? 0) with false.
    destruct (binary_round_nonzero false m) as [(x & ex & ->) | ->].
    + intros [= <-]. eexists. eexists. reflexivity.
    + discriminate.
  - change (Zneg m <? 0) with true.
    destruct (binary_round_nonzero true m) as [(x & ex & ->) | ->].
    + intros [= <-]. eexists. eexists. reflexivity.
    + discriminate.
Qed.

Lemma add_zero_r (k : Z) (s : bool) :
  add (of_quarters k) (S754_zero s) = of_quarters k.
Proof. destruct k, s; reflexivity. Qed.

Lemma mul_zero_l (z : Z) :
  exists s, mul (of_quarters 0) (of_quarters z) = S754_zero s.
Proof. destruct z; eexists; reflexivity. Qed.

(** One step of the accumulation: the running total [K / 4] plus the
    weight [q / 4] times [z] credit hours. *)
Lemma add_mul_quarters (K q z : Z) :
  0 <= q <= 16 -> Z.abs z < 2 ^ 49 ->
  Z.abs K < 2 ^ 53 -> Z.abs (K + q * z) < 2 ^ 53 ->
  add (of_quarters K) (mul (of_quarters q) (of_quarters (4 * z)))
  = of_quarters (K + q * z).
Proof.
  intros Hq Hz HK HKz.
  destruct q as [ | a | a ]; try lia.
  - destruct (mul_zero_l (4 * z)) as [s ->].
    rewrite add_zero_r. f_equal. lia.
  - destruct z as [ | p | p ].
    + change (mul (of_quarters (Zpos a)) (of_quarters (4 * 0)))
        with (S754_zero false).
      rewrite add_zero_r. f_equal. lia.
    + change (of_quarters (4 * Zpos p)) with (q4 false (4 * p)).
      change (of_quarters (Zpos a)) with (q4 false a).
      rewrite mul_q4 by nia.
      change (q4 (xorb false false) (a * p)) with (of_quarters (Zpos a * Zpos p)).
      apply add_of_quarters; nia.
    + change (of_quarters (4 * Zneg p)) with (q4 true (4 * p)).
      change (of_quarters (Zpos a)) with (q4 false a).
      rewrite mul_q4 by nia.
      change (q4 (xorb false true) (a * p)) with (of_quarters (Zpos a * Zneg p)).
      apply add_of_quarters; nia.
Qed.

Lemma of_quarters_is_zero (k : Z) : k <> 0 -> is_zero (of_quarters k) = false.
Proof. destruct k; [contradiction|reflexivity|reflexivity]. Qed.

(** ** Division: the rounding error of an inexact quotient *)

Lemma new_location_ok (den num : Z) :
  0 <= num < den -> loc_ok den num (new_location den num).
Proof.
  intros H. unfold new_location, new_location_even, new_location_odd.
  destruct (Z.even den) eqn:He.
  - destruct (Z.eqb_spec num 0) as [->|Hn]; [reflexivity|].
    unfold loc_ok. destruct (Z.compare_spec (2 * num) den); lia.
  - destruct (Z.eqb_spec num 0) as [->|Hn]; [reflexivity|].
    assert (Hodd : Z.odd den = true) by (rewrite <- Z.negb_even, He; reflexivity).
    apply Z.odd_spec in Hodd. destruct Hodd as [k Hk].
    unfold loc_ok. destruct (Z.compare_spec (2 * num + 1) den); lia.
Qed.

Lemma loc_of_shr_record_of_loc (m : Z) (l : location) :
  loc_of_shr_record (shr_record_of_loc m l) = l.
Proof. destruct l as [ | [ | | ] ]; reflexivity. Qed.

Lemma round_nearest_even_bracket (q den num : Z) (l : location) :
  0 <= num < den -> loc_ok den num l ->
  q <= round_nearest_even q l <= q + 1
  /\ 2 * Z.abs (round_nearest_even q l * den - (q * den + num)) <= den.
Proof.
  intros Hn Hl. unfold round_nearest_even.
  destruct l as [ | [ | | ] ]; unfold loc_ok in Hl;
    try destruct (Z.even q); split; nia.
Qed.

(** One right shift of a mantissa with its location: the new location
    describes the new fraction. *)
Lemma shr_1_loc (q den num : Z) (l : location) :
  0 < q -> 0 <= num < den -> loc_ok den num l ->
  exists h b,
    q = 2 * h + b /\ 0 <= b <= 1
    /\ shr_m (shr_1 (shr_record_of_loc q l)) = h
    /\ loc_ok (2 * den) (b * den + num)
         (loc_of_shr_record (shr_1 (shr_record_of_loc q l))).
Proof.
  intros Hq Hn Hl. destruct q as [ | q | q ]; try lia.
  destruct q as [ q | q | ].
  - exists (Zpos q), 1. split; [lia|]. split; [lia|].
    destruct l as [ | [ | | ] ]; unfold loc_ok in Hl;
      cbn [shr_1 shr_record_of_loc shr_m loc_of_shr_record orb loc_ok]; lia.
  - exists (Zpos q), 0. split; [lia|]. split; [lia|].
    destruct l as [ | [ | | ] ]; unfold loc_ok in Hl;
      cbn [shr_1 shr_record_of_loc shr_m loc_of_shr_record orb loc_ok]; lia.
  - exists 0, 1. split; [lia|]. split; [lia|].
    destruct l as [ | [ | | ] ]; unfold loc_ok in Hl;
      cbn [shr_1 shr_record_of_loc shr_m loc_of_shr_record orb loc_ok]; lia.
Qed.

Lemma shr_fexp_53 (q e : Z) (l : location) :
  2 ^ 52 <= q < 2 ^ 53 -> - 1074 <= e ->
  shr_fexp prec emax q e l = (shr_record_of_loc q l, e).
Proof.
  intros Hq He. destruct q as [ | p | p ]; try lia.
  unfold shr_fexp. rewrite (Zdigits2_bounds p 53) by (simpl; lia).
  replace (fexp prec emax (53 + e) - e) with 0
    by (unfold fexp, emin, prec, emax; lia).
  reflexivity.
Qed.

Lemma shr_fexp_54 (q e : Z) (l : location) :
  2 ^ 53 <= q < 2 ^ 54 -> - 1074 <= e ->
  shr_fexp prec emax q e l = (shr_1 (shr_record_of_loc q l), e + 1).
Proof.
  intros Hq He. destruct q as [ | p | p ]; try lia.
  unfold shr_fexp. rewrite (Zdigits2_bounds p 54) by (simpl; lia).
  replace (fexp prec emax (54 + e) - e) with 1
    by (unfold fexp, emin, prec, emax; lia).
  reflexivity.
Qed.

(** The second shift of [binary_round_aux]: a rounded mantissa of 53
    bits is kept, and [2^53] is renormalized to [2^52]. *)
Lemma round_finish (s : bool) (m1 e : Z) :
  2 ^ 52 <= m1 <= 2 ^ 53 -> - 1074 <= e <= 969 ->
  exists (m2 : positive) (k : Z),
    0 <= k <= 1 /\ 2 ^ 52 <= Zpos m2 < 2 ^ 53 /\ Zpos m2 * 2 ^ k = m1
    /\ (let '(mrs, e') := shr_fexp prec emax m1 e loc_Exact in
        match shr_m mrs with
        | Z0 => S754_zero s
        | Zpos m => if e' <=? emax - prec then S754_finite s m e'
                    else S754_infinity s
        | Zneg _ => S754_nan
        end) = S754_finite s m2 (e + k).
Proof.
  intros Hm He. destruct m1 as [ | p | p ]; try lia.
  destruct (Z.eq_dec (Zpos p) (2 ^ 53)) as [Heq | Hne].
  - exists (Z.to_pos (2 ^ 52)), 1.
    split; [lia|]. split; [simpl; lia|]. split; [rewrite Heq; reflexivity|].
    rewrite (shr_fexp_exact p (Z.to_pos (2 ^ 52)) e 54 (e + 1)).
    + cbn [exact_rec shr_m].
      destruct (Z.leb_spec (e + 1) (emax - prec)) as [|Hgt];
        [reflexivity|unfold emax, prec in Hgt; lia].
    + rewrite Heq. simpl. lia.
    + unfold fexp, emin, prec, emax. lia.
    + lia.
    + rewrite Heq. replace (e + 1 - e) with 1 by lia. reflexivity.
  - exists p, 0.
    split; [lia|]. split; [lia|]. split; [lia|].
    rewrite (shr_fexp_exact p p e 53 e).
    + cbn [exact_rec shr_m]. rewrite Z.add_0_r.
      destruct (Z.leb_spec e (emax - prec)) as [|Hgt];
        [reflexivity|unfold emax, prec in Hgt; lia].
    + simpl. lia.
    + unfold fexp, emin, prec, emax. lia.
    + lia.
    + rewrite Z.sub_diag. lia.
Qed.

(** Rounding a quotient [q + num / den] of 53 or 54 bits: the result is
    a normal number within half a unit in the last place. *)
Lemma binary_round_aux_bracket (s : bool) (q e den num : Z) (l : location) :
  2 ^ 52 <= q < 2 ^ 54 -> - 1074 <= e <= 968 ->
  0 <= num < den -> loc_ok den num l ->
  exists (m2 : positive) (k : Z),
    0 <= k <= 2 /\ 2 ^ 52 <= Zpos m2 < 2 ^ 53
    /\ binary_round_aux prec emax s q e l = S754_finite s m2 (e + k)
    /\ 2 * Z.abs (Zpos m2 * 2 ^ k * den - (q * den + num)) <= 2 ^ k * den.
Proof.
  intros Hq He Hn Hl. unfold binary_round_aux.
  destruct (Z.lt_ge_cases q (2 ^ 53)) as [Hlt | Hge].
  - rewrite shr_fexp_53 by lia.
    rewrite shr_record_of_loc_m, loc_of_shr_record_of_loc.
    destruct (round_nearest_even_bracket q den num l Hn Hl) as [Hr Hb].
    destruct (round_finish s (round_nearest_even q l) e) as
      (m2 & k & Hk & Hm2 & Hv & ->); try lia.
    exists m2, k. split; [lia|]. split; [assumption|]. split; [reflexivity|].
    rewrite Hv. assert (Hk2 : k = 0 \/ k = 1) by lia.
    destruct Hk2 as [-> | ->]; simpl Z.pow; lia.
  - rewrite shr_fexp_54 by lia.
    destruct (shr_1_loc q den num l ltac:(lia) Hn Hl)
      as (h & b & Hqh & Hb & Hh & Hl').
    rewrite Hh.
    destruct (round_nearest_even_bracket h (2 * den) (b * den + num) _
                ltac:(nia) Hl') as [Hr Hbr].
    set (m1 := round_nearest_even h
                 (loc_of_shr_record (shr_1 (shr_record_of_loc q l)))) in *.
    destruct (round_finish s m1 (e + 1)) as
      (m2 & k & Hk & Hm2 & Hv & ->); try lia.
    exists m2, (1 + k). split; [lia|]. split; [assumption|].
    split; [f_equal; lia|].
    rewrite Z.pow_add_r by lia. change (2 ^ 1) with 2.
    assert (Hk2 : k = 0 \/ k = 1) by lia.
    destruct Hk2 as [-> | ->]; simpl Z.pow in *; nia.
Qed.

Lemma q4_mantissa_bounds (k : positive) :
  Zpos k < 2 ^ 53 ->
  2 ^ 52 <= Zpos k * 2 ^ (53 - (Z.log2 (Zpos k) + 1)) < 2 ^ 53.
Proof.
  intros Hk. pose proof (log2_small k Hk). pose proof (log2_digits k).
  pose proof (Z.log2_nonneg (Zpos k)).
  change 52 with (53 - 1).
  apply (pow2_scale_up _ _ (Z.log2 (Zpos k) + 1)); lia.
Qed.

Lemma abs_scale_le (A X B : Z) :
  0 < A -> 2 * Z.abs (A * X) <= A * B -> 2 * Z.abs X <= B.
Proof. intros HA H. rewrite Z.abs_mul in H. nia. Qed.

(** The quotient of the numbers [K / 4] and [T]: a normal number [m * 2^e]
    within half a unit in the last place of [K / (4 T)]. *)
Lemma div_q4_bracket (K T : positive) :
  Zpos K < 2 ^ 53 -> Zpos T < 2 ^ 51 ->
  exists (m : positive) (e : Z),
    div (q4 false K) (q4 false (4 * T)) = S754_finite false m e
    /\ e < 0 /\ 2 ^ 52 <= Zpos m < 2 ^ 53
    /\ 2 * Z.abs (Zpos m * (4 * Zpos T) - Zpos K * 2 ^ (- e)) <= 4 * Zpos T.
Proof.
  intros HK HT. assert (H4 : Zpos (4 * T) < 2 ^ 53) by lia.
  pose proof (q4_mantissa_bounds K HK) as HmK.
  pose proof (q4_mantissa_bounds _ H4) as HmT.
  pose proof (log2_small K HK) as HdK. pose proof (log2_small _ H4) as HdT.
  pose proof (Z.log2_nonneg (Zpos K)) as H0K.
  assert (HlT : 2 <= Z.log2 (Zpos (4 * T))).
  { change 2 with (Z.log2 4). apply Z.log2_le_mono. lia. }
  unfold div, q4, SFdiv, SFdiv_core_binary.
  set (a := 53 - (Z.log2 (Zpos K) + 1)) in *.
  set (a' := 53 - (Z.log2 (Zpos (4 * T)) + 1)) in *.
  set (mx := Z.to_pos (Zpos K * 2 ^ a)).
  set (my := Z.to_pos (Zpos (4 * T) * 2 ^ a')).
  assert (Hmx : Zpos mx = Zpos K * 2 ^ a) by (apply to_pos_mul_pow2; lia).
  assert (Hmy : Zpos my = Zpos (4 * T) * 2 ^ a') by (apply to_pos_mul_pow2; lia).
  rewrite (Zdigits2_bounds mx 53), (Zdigits2_bounds my 53) by (simpl; lia).
  replace (Z.min _ _) with (a' - a - 53)
    by (unfold fexp, emin, prec, emax, a, a'; lia).
  replace (Z.log2 (Zpos K) + 1 - 55 - (Z.log2 (Zpos (4 * T)) + 1 - 55)
           - (a' - a - 53)) with 53 by (unfold a, a'; lia).
  rewrite Z.shiftl_mul_pow2 by lia.
  pose proof (Z_div_mod (Zpos mx * 2 ^ 53) (Zpos my) ltac:(lia)) as Hdm.
  destruct (Z.div_eucl (Zpos mx * 2 ^ 53) (Zpos my)) as [q r].
  destruct Hdm as [Hqr Hr].
  assert (Hq : 2 ^ 52 <= q < 2 ^ 54).
  { change (2 ^ 52) with 4503599627370496 in *.
    change (2 ^ 53) with 9007199254740992 in *.
    change (2 ^ 54) with 18014398509481984. nia. }
  destruct (binary_round_aux_bracket (xorb false false) q (a' - a - 53)
              (Zpos my) r (new_location (Zpos my) r)) as
    (m2 & k & Hk & Hm2 & -> & Hb); try lia.
  { apply new_location_ok. assumption. }
  exists m2, (a' - a - 53 + k).
  split; [reflexivity|]. split; [unfold a, a'; lia|]. split; [assumption|].
  apply (abs_scale_le (2 ^ (a' + k))).
  - apply Z.pow_pos_nonneg; lia.
  - replace (q * Zpos my + r) with (Zpos mx * 2 ^ 53) in Hb by lia.
    rewrite Hmx, Hmy in Hb.
    replace (2 ^ (a' + k) * (Zpos m2 * (4 * Zpos T)
                             - Zpos K * 2 ^ (- (a' - a - 53 + k))))
      with (Zpos m2 * 2 ^ k * (Zpos (4 * T) * 2 ^ a')
            - Zpos K * 2 ^ a * 2 ^ 53).
    + replace (2 ^ (a' + k) * (4 * Zpos T))
        with (2 ^ k * (Zpos (4 * T) * 2 ^ a')); [assumption|].
      rewrite Z.pow_add_r by lia. lia.
    + replace (Zpos K * 2 ^ a * 2 ^ 53)
        with (Zpos K * (2 ^ (- (a' - a - 53 + k)) * 2 ^ (a' + k))).
      * rewrite Z.pow_add_r with (b := a') by lia.
        rewrite Pos2Z.inj_mul. ring.
      * rewrite <- Z.pow_add_r by (unfold a, a' in *; lia).
        rewrite <- Z.mul_assoc, <- Z.pow_add_r by lia.
        f_equal. f_equal. lia.
Qed.

Lemma div_half_even_nearest (a b N : Z) :
  0 < b -> 2 * Z.abs (a - N * b) < b -> div_half_even a b = N.
Proof.
  intros Hb HN. unfold div_half_even.
  pose proof (Z.div_mod a b ltac:(lia)) as Hdm.
  pose proof (Z.mod_pos_bound a b Hb) as Hr.
  set (q := a / b) in *. set (r := a mod b) in *.
  destruct (Z.compare_spec (2 * r) b) as [Heq | Hlt | Hgt].
  - exfalso. assert (Hc : N <= q \/ q + 1 <= N) by lia.
    destruct Hc; nia.
  - assert (Hc : N < q \/ N = q \/ q < N) by lia.
    destruct Hc as [Hc | [Hc | Hc]]; [nia | lia | nia].
  - assert (Hc : N < q + 1 \/ N = q + 1 \/ q + 1 < N) by lia.
    destruct Hc as [Hc | [Hc | Hc]]; [nia | lia | nia].
Qed.

Lemma div_half_even_spec (a b : Z) :
  0 < b -> 2 * (a mod b) <> b ->
  2 * Z.abs (a - div_half_even a b * b) < b.
Proof.
  intros Hb Hne. unfold div_half_even.
  pose proof (Z.div_mod a b ltac:(lia)) as Hdm.
  pose proof (Z.mod_pos_bound a b Hb) as Hr.
  set (q := a / b) in *. set (r := a mod b) in *.
  destruct (Z.compare_spec (2 * r) b) as [Heq | Hlt | Hgt]; [lia | nia | nia].
Qed.

(** Away from the ties the two roundings commute: rounding the binary64
    quotient to 2 decimals gives the hundredth nearest to the exact
    quotient [K / (4 T)]. *)
Lemma round_div_q4 (K T : positive) (N : Z) :
  Zpos K < 2 ^ 47 -> Zpos T < 2 ^ 51 ->
  2 * Z.abs (25 * Zpos K - N * Zpos T) < Zpos T ->
  round (div (q4 false K) (q4 false (4 * T))) 2 = dec N 2.
Proof.
  intros HK HT HN.
  destruct (div_q4_bracket K T) as (m & e & -> & He & Hm & Hb); try lia.
  unfold round. destruct (Z.leb_spec 0 e) as [|_]; [lia|].
  change (Zpos (pow10 2)) with 100.
  assert (HP : 0 < 2 ^ (- e)) by (apply Z.pow_pos_nonneg; lia).
  set (P := 2 ^ (- e)) in *.
  change (2 ^ 52) with 4503599627370496 in Hm.
  change (2 ^ 47) with 140737488355328 in HK.
  assert (HPT : 100 * Zpos T < P) by nia.
  assert (Hid : Zpos T * (Zpos m * 100 - N * P)
                = 25 * (Zpos m * (4 * Zpos T) - Zpos K * P)
                  + P * (25 * Zpos K - N * Zpos T)) by ring.
  assert (Hn : div_half_even (Zpos m * 100) P = N).
  { apply div_half_even_nearest; [assumption|].
    assert (Hs : 2 * Z.abs (Zpos T * (Zpos m * 100 - N * P)) < Zpos T * P).
    { rewrite Hid. nia. }
    rewrite Z.abs_mul in Hs. nia. }
  rewrite Hn. destruct N as [ | n | n ]; try reflexivity. nia.
Qed.

Lemma div_half_even_bound (a b : Z) :
  0 <= a -> 0 < b ->
  0 <= div_half_even a b /\ 2 * Z.abs (a - div_half_even a b * b) <= b.
Proof.
  intros Ha Hb. unfold div_half_even.
  pose proof (Z.div_mod a b ltac:(lia)) as Hdm.
  pose proof (Z.mod_pos_bound a b Hb) as Hr.
  pose proof (Z.div_pos a b Ha Hb) as Hq.
  set (q := a / b) in *. set (r := a mod b) in *.
  destruct (Z.compare_spec (2 * r) b) as [Heq | Hlt | Hgt];
    try destruct (Z.even q); split; nia.
Qed.

(** At a tie too, the rounded binary64 quotient is a hundredth within
    0.005 of the exact quotient [K / (4 T)]. *)
Lemma round_div_q4_near (K T : positive) :
  Zpos K < 2 ^ 47 -> Zpos T < 2 ^ 51 ->
  exists n,
    round (div (q4 false K) (q4 false (4 * T))) 2 = dec n 2
    /\ 2 * Z.abs (25 * Zpos K - n * Zpos T) <= Zpos T.
Proof.
  intros HK HT.
  destruct (div_q4_bracket K T) as (m & e & -> & He & Hm & Hb); try lia.
  unfold round. destruct (Z.leb_spec 0 e) as [|_]; [lia|].
  change (Zpos (pow10 2)) with 100.
  assert (HP : 0 < 2 ^ (- e)) by (apply Z.pow_pos_nonneg; lia).
  set (P := 2 ^ (- e)) in *.
  change (2 ^ 52) with 4503599627370496 in Hm.
  change (2 ^ 47) with 140737488355328 in HK.
  assert (HPT : 100 * Zpos T < P) by nia.
  destruct (div_half_even_bound (Zpos m * 100) P ltac:(lia) HP) as [Hn0 Hn].
  set (n := div_half_even (Zpos m * 100) P) in *.
  exists n. split.
  - destruct n as [ | k | k ]; try reflexivity. lia.
  - assert (Hid : P * (25 * Zpos K - n * Zpos T)
                  = Zpos T * (Zpos m * 100 - n * P)
                    - 25 * (Zpos m * (4 * Zpos T) - Zpos K * P)) by ring.
    assert (Hs : 2 * Z.abs (P * (25 * Zpos K - n * Zpos T))
                 <= Zpos T * P + 100 * Zpos T).
    { rewrite Hid. nia. }
    rewrite Z.abs_mul in Hs. nia.
Qed.

(** ** Conversion of an [int]: no overflow below [2^1023] *)

(** The exponent after the shift, and the magnitude, which the shift keeps. *)
Lemma shr_fexp_exponent (m e : Z) (l : location) :
  0 < m -> - 1074 < Z.log2 m + 1 + e ->
  exists r e',
    shr_fexp prec emax m e l = (r, e') /\
    0 < shr_m r /\ Z.log2 (shr_m r) + e' = Z.log2 m + e
    /\ e' = Z.max e (fexp prec emax (Z.log2 m + 1 + e)).
Proof.
  intros Hm Hlow. unfold shr_fexp, shr.
  destruct m as [ | m | m ]; try lia.
  rewrite Zdigits2_log2.
  pose proof (Z.log2_nonneg (Zpos m)) as H0.
  destruct (fexp prec emax (Z.log2 (Zpos m) + 1 + e) - e) as [ | p | p ] eqn:Hn.
  - eexists. eexists. split; [reflexivity|].
    rewrite shr_record_of_loc_m. lia.
  - assert (Hp : Zpos p <= Z.log2 (Zpos m)).
    { unfold fexp, emin, prec, emax in Hn. lia. }
    destruct (log2_div_pow2 (Zpos m) (Zpos p)) as [Hq Hlq]; try lia.
    eexists. eexists. split; [reflexivity|].
    rewrite iter_pos_shr_m, shr_record_of_loc_m
      by (rewrite shr_record_of_loc_m; lia).
    lia.
  - eexists. eexists. split; [reflexivity|].
    rewrite shr_record_of_loc_m. lia.
Qed.

Lemma round_nearest_even_le (x : Z) (l : location) :
  round_nearest_even x l <= x + 1.
Proof.
  unfold round_nearest_even.
  destruct l as [ | [ | | ] ]; try lia. destruct (Z.even x); lia.
Qed.

(** Rounding a number below [2^1023] never overflows. *)
Lemma binary_round_aux_finite (s : bool) (m e : Z) (l : location) :
  0 < m -> - 1074 < Z.log2 m + 1 + e -> Z.log2 m + 1 + e <= 1023 ->
  e <= 971 ->
  exists x ex, binary_round_aux prec emax s m e l = S754_finite s x ex.
Proof.
  intros Hm Hlow Hhigh He. unfold binary_round_aux.
  destruct (shr_fexp_exponent m e l Hm Hlow) as (r1 & e1 & -> & Hr1 & Hl1 & He1).
  pose proof (round_nearest_even_ge (shr_m r1) (loc_of_shr_record r1)) as Hge.
  pose proof (round_nearest_even_le (shr_m r1) (loc_of_shr_record r1)) as Hle.
  set (m1 := round_nearest_even (shr_m r1) (loc_of_shr_record r1)) in *.
  assert (Hlo : Z.log2 (shr_m r1) <= Z.log2 m1) by (apply Z.log2_le_mono; lia).
  assert (Hhi : Z.log2 m1 <= Z.log2 (shr_m r1) + 1).
  { apply Z.le_trans with (Z.log2 (Z.succ (shr_m r1))).
    - apply Z.log2_le_mono. lia.
    - apply Z.log2_succ_le. }
  destruct (shr_fexp_exponent m1 e1 loc_Exact) as (r2 & e2 & -> & Hr2 & _ & He2);
    try lia.
  destruct (shr_m r2) as [ | x | x ]; try lia.
  destruct (Z.leb_spec e2 (emax - prec)) as [|Hgt].
  - eexists. eexists. reflexivity.
  - exfalso. unfold fexp, emin, prec, emax in *. lia.
Qed.

Lemma binary_round_finite (s : bool) (m : positive) :
  Zpos m < 2 ^ 1023 ->
  exists x ex, binary_round prec emax s m 0 = S754_finite s x ex.
Proof.
  intros Hm. unfold binary_round.
  pose proof (shl_align_log2 m 0 (fexp prec emax (Zpos (digits2_pos m) + 0)))
    as Hal.
  assert (Hez : snd (shl_align m 0 (fexp prec emax (Zpos (digits2_pos m) + 0)))
                <= 0).
  { unfold shl_align.
    destruct (fexp prec emax (Zpos (digits2_pos m) + 0) - 0) eqn:Hd;
      cbn [snd]; lia. }
  destruct (shl_align m 0 (fexp prec emax (Zpos (digits2_pos m) + 0)))
    as [mz ez].
  cbn [fst snd] in Hal, Hez. pose proof (Z.log2_nonneg (Zpos m)).
  assert (Z.log2 (Zpos m) < 1023) by (apply Z.log2_lt_pow2; lia).
  apply binary_round_aux_finite; lia.
Qed.

(** [float(n)] is defined for every [int] below [2^1023] in absolute
    value. *)
Lemma of_int_defined (n : Z) : Z.abs n < 2 ^ 1023 -> of_int n <> None.
Proof.
  intros Hn. unfold of_int, binary_normalize.
  destruct n as [ | m | m ]; [discriminate| | ].
  - destruct (binary_round_finite false m) as (x & ex & ->);
      [lia|discriminate].
  - destruct (binary_round_finite true m) as (x & ex & ->);
      [lia|discriminate].
Qed.

End PyFloatFacts.

(** * Facts about the handlers *)

Module AcadFacts.

Import PyStr PyFloat Acad PyStrFacts PyFloatFacts.
Local Open Scope Z_scope.
Local Open Scope string_scope.

(** ** The two tables *)

Lemma table_cases (k : string) :
  (dict_get bobot_nilai k = None /\ dict_get grade_weight_table k = None
   /\ ~ In k (dict_keys grade_weight_table))
  \/ (exists q, 0 <= q <= 16
        /\ dict_get bobot_nilai k = Some (of_quarters q)
        /\ dict_get grade_weight_table k = Some (25 * q)
        /\ In k (dict_keys grade_weight_table)).
Proof.
  unfold bobot_nilai, grade_weight_table, dict_keys. cbn [dict_get map fst].
  repeat match goal with
         | |- context [String.eqb k ?s] =>
             destruct (String.eqb_spec k s) as [-> | ?]
         end;
    try (right;
         first [ exists 16; repeat split; (lia || reflexivity || (simpl; tauto))
               | exists 15; repeat split; (lia || reflexivity || (simpl; tauto))
               | exists 14; repeat split; (lia || reflexivity || (simpl; tauto))
               | exists 12; repeat split; (lia || reflexivity || (simpl; tauto))
               | exists 11; repeat split; (lia || reflexivity || (simpl; tauto))
               | exists 10; repeat split; (lia || reflexivity || (simpl; tauto))
               | exists 8; repeat split; (lia || reflexivity || (simpl; tauto))
               | exists 4; repeat split; (lia || reflexivity || (simpl; tauto))
               | exists 0; repeat split; (lia || reflexivity || (simpl; tauto)) ]).
  left. repeat split. simpl. intuition congruence.
Qed.

Lemma valid_grade_weight (row : krs_row) :
  valid_grade row ->
  exists q, 0 <= q <= 16
    /\ dict_get bobot_nilai (normalize (row_nilai row)) = Some (of_quarters q)
    /\ row_bobot100 row = 25 * (q * row_sks row)
    /\ row_quarters row = q * row_sks row.
Proof.
  unfold valid_grade, row_bobot100, row_quarters. intros Hv.
  destruct (table_cases (normalize (row_nilai row)))
    as [(_ & _ & Hn) | (q & Hq & Hb & Hw & _)]; [contradiction|].
  exists q. rewrite Hw. repeat split; try assumption; try lia.
  rewrite Z.mul_comm with (n := 25), Z.div_mul by lia. reflexivity.
Qed.


(** Credit hours below [2^1023] in absolute value, as any integer column
    holds them, convert to float. *)
Lemma sks_in_range_convertible (row : krs_row) :
  Z.abs (row_sks row) < 2 ^ 1023 -> row_convertible row.
Proof. apply of_int_defined. Qed.

(** ** The loop *)

Lemma loop_app (a b : list krs_row) (st : loop_state) :
  loop (a ++ b) st = (st' <- loop a st ;; loop b st').
Proof.
  revert st. induction a as [ | row a IH ]; intros st; simpl; [reflexivity|].
  destruct (loop_body st row) as [e | st']; simpl; [reflexivity|apply IH].
Qed.


Lemma loop_body_valid (st : loop_state) (row : krs_row) :
  valid_grade row -> row_convertible row ->
  exists w y,
    dict_get bobot_nilai (normalize (row_nilai row)) = Some w
    /\ of_int (row_sks row) = Some y
    /\ loop_body st row =
       inr {| st_total_sks := st_total_sks st + row_sks row;
              st_total_bobot := add (st_total_bobot st) (mul w y);
              st_detail := st_detail st ++
                [ {| d_nilai := normalize (row_nilai row);
                     d_sks := row_sks row;
                     d_bobot := w;
                     d_bobot_x_sks := round (mul w y) 2 |} ] |}.
Proof.
  intros Hv Hc.
  destruct (valid_grade_weight row Hv) as (q & _ & Hw & _).
  unfold row_convertible, convertible in Hc.
  destruct (of_int (row_sks row)) as [y|] eqn:Hy; [|contradiction].
  exists (of_quarters q), y. repeat split; try assumption.
  unfold loop_body, float_mul_int.
  change (upper (strip (row_nilai row))) with (normalize (row_nilai row)).
  rewrite Hw, Hy. reflexivity.
Qed.

Lemma loop_succeeds (rows : list krs_row) :
  Forall valid_grade rows -> Forall row_convertible rows ->
  forall st, exists st',
    loop rows st = inr st'
    /\ st_total_sks st' = st_total_sks st + sum_sks rows.
Proof.
  induction rows as [ | row rows IH ]; intros Hv Hc st; simpl.
  - exists st. split; [reflexivity|lia].
  - inversion Hv as [ | ? ? Hv1 Hv2 ]; inversion Hc as [ | ? ? Hc1 Hc2 ]; subst.
    destruct (loop_body_valid st row Hv1 Hc1) as (w & y & _ & _ & ->).
    simpl. destruct (IH Hv2 Hc2 {| st_total_sks := st_total_sks st + row_sks row;
              st_total_bobot := add (st_total_bobot st) (mul w y);
              st_detail := st_detail st ++
                [ {| d_nilai := normalize (row_nilai row);
                     d_sks := row_sks row;
                     d_bobot := w;
                     d_bobot_x_sks := round (mul w y) 2 |} ] |})
      as (st' & Hl & Hs).
    exists st'. split; [assumption|]. rewrite Hs. simpl. lia.
Qed.



Lemma loop_body_inr (st st1 : loop_state) (row : krs_row) :
  loop_body st row = inr st1 ->
  exists w y,
    dict_get bobot_nilai (normalize (row_nilai row)) = Some w
    /\ of_int (row_sks row) = Some y
    /\ st1 = {| st_total_sks := st_total_sks st + row_sks row;
                st_total_bobot := add (st_total_bobot st) (mul w y);
                st_detail := st_detail st ++
                  [ {| d_nilai := normalize (row_nilai row);
                       d_sks := row_sks row;
                       d_bobot := w;
                       d_bobot_x_sks := round (mul w y) 2 |} ] |}.
Proof.
  unfold loop_body, float_mul_int.
  change (upper (strip (row_nilai row))) with (normalize (row_nilai row)).
  destruct (dict_get bobot_nilai (normalize (row_nilai row))) as [w|];
    [|discriminate].
  destruct (of_int (row_sks row)) as [y|]; [|discriminate].
  simpl. intros [= <-]. exists w, y. repeat split.
Qed.

Lemma loop_body_inl (st : loop_state) (row : krs_row) (e : exn) :
  loop_body st row = inl e ->
  e = invalid_grade (normalize (row_nilai row))
  \/ e = Exception OverflowError "int too large to convert to float".
Proof.
  unfold loop_body, float_mul_int.
  change (upper (strip (row_nilai row))) with (normalize (row_nilai row)).
  destruct (dict_get bobot_nilai (normalize (row_nilai row))) as [w|].
  - destruct (of_int (row_sks row)) as [y|]; simpl; [discriminate|].
    intros [= <-]. right. reflexivity.
  - simpl. intros [= <-]. left. reflexivity.
Qed.

Lemma loop_inl (rows : list krs_row) :
  forall (st : loop_state) (e : exn),
    loop rows st = inl e ->
    (exists token, e = invalid_grade token)
    \/ e = Exception OverflowError "int too large to convert to float".
Proof.
  induction rows as [ | row rows IH ]; intros st e; simpl; [discriminate|].
  destruct (loop_body st row) as [e1 | st1] eqn:Hb; simpl.
  - intros [= <-]. destruct (loop_body_inl st row e1 Hb) as [-> | ->].
    + left. eexists. reflexivity.
    + right. reflexivity.
  - apply IH.
Qed.

(** What the loop has computed when it ends normally: the loop is a
    left fold over the rows. *)
Lemma loop_inr (rows : list krs_row) :
  forall st st' : loop_state,
    loop rows st = inr st' ->
    exists products details,
      traverse row_product rows = Some products
      /\ traverse row_detail rows = Some details
      /\ st_total_sks st' = st_total_sks st + sum_sks rows
      /\ st_total_bobot st' = fold_left add products (st_total_bobot st)
      /\ st_detail st' = (st_detail st ++ details)%list.
Proof.
  induction rows as [ | row rows IH ]; intros st st'; simpl.
  - intros [= <-]. exists [], []. rewrite app_nil_r.
    repeat split; try reflexivity. lia.
  - destruct (loop_body st row) as [e1 | st1] eqn:Hb; simpl; [discriminate|].
    intros Hl.
    destruct (loop_body_inr st st1 row Hb) as (w & y & Hw & Hy & ->).
    destruct (IH _ _ Hl) as (ps & ds & Hps & Hds & Hs & Ht & Hd).
    cbn [st_total_sks st_total_bobot st_detail] in Hs, Ht, Hd.
    assert (Hp : row_product row = Some (mul w y)).
    { unfold row_product. rewrite Hw, Hy. reflexivity. }
    assert (Hr : row_detail row
                 = Some {| d_nilai := normalize (row_nilai row);
                           d_sks := row_sks row;
                           d_bobot := w;
                           d_bobot_x_sks := round (mul w y) 2 |}).
    { unfold row_detail. rewrite Hw, Hp. reflexivity. }
    rewrite Hp, Hr, Hps, Hds.
    eexists. eexists. split; [reflexivity|]. split; [reflexivity|].
    cbn [fold_left]. rewrite Hs, Ht, Hd, <- app_assoc.
    repeat split; try reflexivity. lia.
Qed.

Lemma get_ips_rows (nim : string) (row0 : krs_row) (rest : list krs_row) :
  get_ips_body nim (Rows (row0 :: rest))
  = (st <- loop (row0 :: rest) init_state ;;
     if (st_total_sks st =? 0)%Z then raise zero_sks
     else
       ips <- float_div_int (st_total_bobot st) (st_total_sks st) ;;
       ret {| r_nim := row_nim row0;
              r_nama := row_nama row0;
              r_jurusan := row_jurusan row0;
              total_sks := st_total_sks st;
              total_bobot := round (st_total_bobot st) 2;
              ips := round ips 2;
              detail_perhitungan := st_detail st |}).
Proof. reflexivity. Qed.

Lemma float_div_int_nonzero (x : float) (n : Z) :
  n <> 0 ->
  float_div_int x n
  = inl (Exception OverflowError "int too large to convert to float")
  \/ exists y, of_int n = Some y /\ float_div_int x n = inr (div x y).
Proof.
  intros Hn. unfold float_div_int.
  destruct (of_int n) as [y|] eqn:Hy; [|left; reflexivity].
  destruct (of_int_nonzero n y Hn Hy) as (m & e & ->).
  right. eexists. split; reflexivity.
Qed.

(** The body of the handler never divides by zero. *)
Lemma no_zero_division (nim : string) (db : fetched krs_row) (msg : string) :
  get_ips_body nim db <> inl (Exception ZeroDivisionError msg).
Proof.
  destruct db as [[ | row0 rest] | m]; try discriminate.
  rewrite get_ips_rows.
  destruct (loop (row0 :: rest) init_state) as [e | st] eqn:Hl.
  - destruct (loop_inl _ _ _ Hl) as [[token ->] | ->]; discriminate.
  - cbn [bind]. destruct (Z.eqb_spec (st_total_sks st) 0) as [|Hn];
      [discriminate|].
    destruct (float_div_int_nonzero (st_total_bobot st) _ Hn)
      as [-> | (y & _ & ->)]; discriminate.
Qed.

Lemma get_ips_zero_total (nim : string) (rows : list krs_row) :
  rows <> [] -> Forall valid_grade rows -> Forall row_convertible rows ->
  sum_sks rows = 0 ->
  get_ips nim (Rows rows) = inl zero_sks.
Proof.
  intros Hne Hv Hc Hs. destruct rows as [ | row0 rest ]; [contradiction|].
  unfold get_ips. rewrite get_ips_rows.
  destruct (loop_succeeds _ Hv Hc init_state) as (st & -> & Ht).
  cbn [bind]. rewrite Ht, Hs. reflexivity.
Qed.

Lemma get_ips_nonzero_total (nim : string) (rows : list krs_row) :
  rows <> [] -> Forall valid_grade rows -> Forall row_convertible rows ->
  sum_sks rows <> 0 ->
  get_ips nim (Rows rows) <> inl zero_sks.
Proof.
  intros Hne Hv Hc Hs. destruct rows as [ | row0 rest ]; [contradiction|].
  unfold get_ips. rewrite get_ips_rows.
  destruct (loop_succeeds _ Hv Hc init_state) as (st & -> & Ht).
  cbn [bind]. cbn [init_state st_total_sks] in Ht.
  destruct (Z.eqb_spec (st_total_sks st) 0) as [|Hn]; [lia|].
  destruct (float_div_int_nonzero (st_total_bobot st) _ Hn)
    as [-> | (y & _ & ->)]; discriminate.
Qed.

(** Rows all graded E leave the running total at [0.0]. *)
Lemma loop_all_E (rows : list krs_row) :
  Forall (fun row => normalize (row_nilai row) = "E") rows ->
  Forall (fun row => 0 < row_sks row) rows ->
  Forall row_convertible rows ->
  forall st, st_total_bobot st = S754_zero false ->
    exists st',
      loop rows st = inr st'
      /\ st_total_sks st' = st_total_sks st + sum_sks rows
      /\ st_total_bobot st' = S754_zero false.
Proof.
  induction rows as [ | row rows IH ]; intros HE Hp Hc st Hz; simpl.
  - exists st. repeat split; try assumption. lia.
  - inversion HE as [ | ? ? HE1 HE2 ]; inversion Hp as [ | ? ? Hp1 Hp2 ];
      inversion Hc as [ | ? ? Hc1 Hc2 ]; subst.
    cbv beta in HE1, Hp1. unfold row_convertible, convertible in Hc1.
    destruct (of_int (row_sks row)) as [y|] eqn:Hy; [|contradiction].
    destruct (of_int_nonzero (row_sks row) y ltac:(lia) Hy) as (m & e & ->).
    assert (Hb : loop_body st row
                 = inr {| st_total_sks := st_total_sks st + row_sks row;
                          st_total_bobot := S754_zero false;
                          st_detail := st_detail st ++
                            [ {| d_nilai := "E";
                                 d_sks := row_sks row;
                                 d_bobot := S754_zero false;
                                 d_bobot_x_sks := S754_zero false |} ] |}).
    { unfold loop_body, float_mul_int.
      change (upper (strip (row_nilai row))) with (normalize (row_nilai row)).
      rewrite HE1, Hy, Hz.
      destruct (Z.ltb_spec (row_sks row) 0); [lia|]. reflexivity. }
    rewrite Hb. cbn [bind].
    match goal with
    | |- context [loop rows ?s] =>
        destruct (IH HE2 Hp2 Hc2 s eq_refl) as (st' & Hl & Hs & Ht)
    end.
    exists st'. cbn [st_total_sks] in Hs. repeat split; try assumption. lia.
Qed.

Lemma sum_sks_pos (rows : list krs_row) :
  rows <> [] -> Forall (fun row => 0 < row_sks row) rows -> 0 < sum_sks rows.
Proof.
  intros Hne Hp. induction Hp as [ | row rest H1 H2 IH ]; [contradiction|].
  simpl. destruct rest as [ | r rest' ]; [simpl; lia|].
  assert (0 < sum_sks (r :: rest')) by (apply IH; discriminate). lia.
Qed.

Lemma get_ips_all_E (nim : string) (rows : list krs_row) :
  rows <> [] ->
  Forall (fun row => normalize (row_nilai row) = "E") rows ->
  Forall (fun row => 0 < row_sks row) rows ->
  Forall row_convertible rows -> convertible (sum_sks rows) ->
  exists r,
    get_ips nim (Rows rows) = inr r
    /\ total_sks r = sum_sks rows
    /\ total_bobot r = S754_zero false
    /\ ips r = S754_zero false.
Proof.
  intros Hne HE Hp Hc Hs. pose proof (sum_sks_pos rows Hne Hp) as Hpos.
  destruct rows as [ | row0 rest ]; [contradiction|].
  unfold get_ips. rewrite get_ips_rows.
  destruct (loop_all_E _ HE Hp Hc init_state eq_refl) as (st & -> & Ht & Hz).
  cbn [bind]. cbn [init_state st_total_sks] in Ht. rewrite Z.add_0_l in Ht.
  destruct (Z.eqb_spec (st_total_sks st) 0) as [|Hn]; [lia|].
  unfold float_div_int. rewrite Ht. unfold convertible in Hs.
  destruct (of_int (sum_sks (row0 :: rest))) as [y|] eqn:Hy; [|contradiction].
  destruct (of_int_nonzero (sum_sks (row0 :: rest)) y ltac:(lia) Hy)
    as (m & e & ->).
  destruct (Z.ltb_spec (sum_sks (row0 :: rest)) 0); [lia|].
  cbn [is_zero bind ret try_except]. eexists. split; [reflexivity|].
  cbn [total_sks total_bobot ips]. rewrite Hz. repeat split.
Qed.

(** Within the exact range of binary64 the running total is the exact
    sum, in quarters of a quality point. *)
Lemma loop_exact (rows : list krs_row) :
  Forall valid_grade rows ->
  forall (st : loop_state) (K : Z),
    st_total_bobot st = of_quarters K ->
    Z.abs K + 16 * sum_abs_sks rows < 2 ^ 53 ->
    exists st',
      loop rows st = inr st'
      /\ st_total_sks st' = st_total_sks st + sum_sks rows
      /\ st_total_bobot st' = of_quarters (K + sum_quarters rows).
Proof.
  induction rows as [ | row rows IH ]; intros Hv st K HK Hb; simpl.
  - exists st. repeat split; try lia. rewrite HK. f_equal. lia.
  - inversion Hv as [ | ? ? Hv1 Hv2 ]; subst.
    assert (Habs : 0 <= sum_abs_sks rows).
    { clear. induction rows as [ | r l IHl ]; simpl; lia. }
    cbn [sum_abs_sks fold_right] in Hb. fold (sum_abs_sks rows) in Hb.
    destruct (valid_grade_weight row Hv1) as (q & Hq & Hw & _ & Hrq).
    assert (Hy : of_int (row_sks row) = Some (of_quarters (4 * row_sks row)))
      by (apply of_int_quarters; lia).
    assert (Hbody : loop_body st row
              = inr {| st_total_sks := st_total_sks st + row_sks row;
                       st_total_bobot := of_quarters (K + q * row_sks row);
                       st_detail := st_detail st ++
                         [ {| d_nilai := normalize (row_nilai row);
                              d_sks := row_sks row;
                              d_bobot := of_quarters q;
                              d_bobot_x_sks :=
                                round (mul (of_quarters q)
                                           (of_quarters (4 * row_sks row))) 2
                           |} ] |}).
    { unfold loop_body, float_mul_int.
      change (upper (strip (row_nilai row))) with (normalize (row_nilai row)).
      rewrite Hw, Hy, HK. cbn [bind ret].
      rewrite add_mul_quarters by nia. reflexivity. }
    rewrite Hbody. cbn [bind].
    match goal with
    | |- context [loop rows ?s] =>
        destruct (IH Hv2 s (K + q * row_sks row) eq_refl) as (st' & Hl & Hs & Ht)
    end.
    + nia.
    + exists st'. cbn [st_total_sks] in Hs. rewrite Hrq.
      repeat split; try assumption; try lia.
      rewrite Ht. f_equal. lia.
Qed.

Lemma sum_bobot100_quarters (rows : list krs_row) :
  Forall valid_grade rows -> sum_bobot100 rows = 25 * sum_quarters rows.
Proof.
  induction 1 as [ | row rows Hv _ IH ]; [reflexivity|].
  unfold sum_bobot100, sum_quarters in *. cbn [fold_right].
  destruct (valid_grade_weight row Hv) as (q & _ & _ & -> & ->). lia.
Qed.

Lemma sum_quarters_bound (rows : list krs_row) :
  Forall valid_grade rows -> Z.abs (sum_quarters rows) <= 16 * sum_abs_sks rows.
Proof.
  induction 1 as [ | row rows Hv _ IH ]; [simpl; lia|].
  unfold sum_abs_sks, sum_quarters in *. cbn [fold_right].
  destruct (valid_grade_weight row Hv) as (q & Hq & _ & _ & ->). nia.
Qed.

Lemma sum_sks_bound (rows : list krs_row) :
  Z.abs (sum_sks rows) <= sum_abs_sks rows.
Proof. induction rows as [ | row rows IH ]; simpl; lia. Qed.

Lemma get_ips_exact (nim : string) (rows : list krs_row) :
  Forall valid_grade rows -> sum_sks rows <> 0 ->
  sum_abs_sks rows < 2 ^ 49 ->
  exists r,
    get_ips nim (Rows rows) = inr r
    /\ total_sks r = sum_sks rows
    /\ total_bobot r = dec (sum_bobot100 rows) 2
    /\ ips r = round (div (dec (sum_bobot100 rows) 2) (dec (sum_sks rows) 0)) 2.
Proof.
  intros Hv Hs Hb.
  pose proof (sum_quarters_bound rows Hv) as HQ.
  pose proof (sum_sks_bound rows) as HS.
  destruct rows as [ | row0 rest ]; [simpl in Hs; lia|].
  unfold get_ips. rewrite get_ips_rows.
  destruct (loop_exact _ Hv init_state 0 eq_refl) as (st & -> & Ht & HK);
    [lia|].
  cbn [bind]. cbn [init_state st_total_sks] in Ht.
  rewrite !Z.add_0_l in *.
  destruct (Z.eqb_spec (st_total_sks st) 0) as [|Hn]; [lia|].
  unfold float_div_int. rewrite Ht, of_int_quarters by lia.
  rewrite of_quarters_is_zero by lia.
  cbn [bind ret try_except]. eexists. split; [reflexivity|].
  cbn [total_sks total_bobot ips].
  rewrite (sum_bobot100_quarters _ Hv), dec_quarters, dec_int by lia.
  rewrite HK, round_of_quarters by lia. repeat split.
Qed.

Lemma sum_nonneg (rows : list krs_row) :
  Forall valid_grade rows -> Forall (fun row => 0 <= row_sks row) rows ->
  sum_abs_sks rows = sum_sks rows /\ 0 <= sum_quarters rows.
Proof.
  intros Hv Hp. induction Hp as [ | row rows Hr _ IH ]; [simpl; lia|].
  inversion Hv as [ | ? ? Hv1 Hv2 ]; subst.
  unfold sum_abs_sks, sum_sks, sum_quarters in *. cbn [fold_right].
  destruct (valid_grade_weight row Hv1) as (q & Hq & _ & _ & ->).
  specialize (IH Hv2). nia.
Qed.

(** ** Normalization *)








End AcadFacts.

(** * Facts about the connection manager *)

Module ConnectionFacts.

Import PyStr Acad AcadIO.
Local Open Scope string_scope.

Lemma filter_prints_only (p : event -> bool) (log : list event) :
  (forall ev, is_db_call ev = false -> p ev = false) ->
  prints_only log -> filter p log = [].
Proof.
  intros Hp H. induction H as [ | ev log Hev _ IH ]; [reflexivity|].
  simpl. rewrite (Hp ev Hev). assumption.
Qed.

Lemma no_close (log : list event) :
  prints_only log -> filter is_close log = [].
Proof.
  apply filter_prints_only. intros [ | | | | line ]; simpl;
    congruence.
Qed.

Lemma no_commit (log : list event) :
  prints_only log -> filter is_commit log = [].
Proof.
  apply filter_prints_only. intros [ | | | | line ]; simpl;
    congruence.
Qed.

Lemma no_rollback (log : list event) :
  prints_only log -> filter is_rollback log = [].
Proof.
  apply filter_prints_only. intros [ | | | | line ]; simpl;
    congruence.
Qed.

Ltac run_connection db body :=
  unfold get_db_connection;
  destruct body as [log [e | a]];
  destruct db as [[c | ] [m | ] [rb | ] [cl | ]];
  cbn [io_bind io_finally io_except io_ret io_raise db_call
       on_connect on_commit on_rollback on_close fst snd app].

Lemma get_ips_request_run (db : db_faults) (nim : string)
    (q : fetched krs_row) :
  get_ips_request db nim q
  = (fst (get_db_connection db (lift (fetchall q))),
     match snd (get_db_connection db (lift (fetchall q))) with
     | inr rows => get_ips nim (Rows rows)
     | inl e => try_except (inl e)
     end).
Proof.
  unfold get_ips_request.
  destruct (get_db_connection db (lift (fetchall q))) as [log [e | rows]];
    unfold io_bind, lift; cbn [fst snd]; [reflexivity|].
  rewrite app_nil_r. reflexivity.
Qed.

Ltac run_query db q :=
  unfold get_db_connection in *;
  destruct q as [rows | qmsg];
  destruct db as [[c | ] [m | ] [rb | ] [cl | ]];
  cbn [io_bind io_finally io_except io_ret io_raise db_call lift fetchall
       ret raise on_connect on_commit on_rollback on_close fst snd app
       try_except except_exception exn_str] in *.

End ConnectionFacts.

(** * Further facts about [get_ips] *)

Module GetIpsFacts.

Import PyStr PyFloat Acad PyStrFacts PyFloatFacts AcadFacts.
Local Open Scope Z_scope.
Local Open Scope string_scope.

Lemma bobot_key_valid (k : string) (w : float) :
  dict_get bobot_nilai k = Some w -> In k (dict_keys grade_weight_table).
Proof.
  intros Hw. destruct (table_cases k) as [(Hb & _ & _) | (q & _ & _ & _ & Hin)];
    [congruence|assumption].
Qed.

Lemma row_product_valid (row : krs_row) (p : float) :
  row_product row = Some p -> valid_grade row /\ row_convertible row.
Proof.
  unfold row_product, valid_grade, row_convertible, convertible.
  destruct (dict_get bobot_nilai (normalize (row_nilai row))) as [w|] eqn:Hw;
    [|discriminate].
  destruct (of_int (row_sks row)); [|discriminate].
  intros _. split; [exact (bobot_key_valid _ _ Hw)|discriminate].
Qed.

Lemma traverse_product_valid (rows : list krs_row) :
  forall ps, traverse row_product rows = Some ps ->
             Forall valid_grade rows /\ Forall row_convertible rows.
Proof.
  induction rows as [ | row rows IH ]; intros ps; simpl.
  - intros _. split; constructor.
  - destruct (row_product row) as [p|] eqn:Hp; [|discriminate].
    destruct (traverse row_product rows) as [ps'|]; [|discriminate].
    intros _. destruct (row_product_valid row p Hp) as [Hv Hc].
    destruct (IH ps' eq_refl) as [Hvs Hcs]. split; constructor; assumption.
Qed.

Lemma try_except_inr {A : Type} (body : result A) (a : A) :
  try_except body = inr a -> body = inr a.
Proof. destruct body as [[s d | c m] | a']; simpl; congruence. Qed.

(** What a successful answer holds. *)
Lemma get_ips_inr (nim : string) (rows : list krs_row) (r : ips_response) :
  get_ips nim (Rows rows) = inr r ->
  exists row0 rest products details y,
    rows = row0 :: rest
    /\ traverse row_product rows = Some products
    /\ traverse row_detail rows = Some details
    /\ sum_sks rows <> 0
    /\ of_int (sum_sks rows) = Some y
    /\ r = {| r_nim := row_nim row0;
              r_nama := row_nama row0;
              r_jurusan := row_jurusan row0;
              total_sks := sum_sks rows;
              total_bobot := round (unrounded_total products) 2;
              ips := round (div (unrounded_total products) y) 2;
              detail_perhitungan := details |}.
Proof.
  destruct rows as [ | row0 rest ]; [discriminate|].
  unfold get_ips. intros H. apply try_except_inr in H.
  rewrite get_ips_rows in H.
  destruct (loop (row0 :: rest) init_state) as [e | st] eqn:Hl;
    [discriminate|].
  cbn [bind] in H.
  destruct (loop_inr _ _ _ Hl) as (ps & ds & Hps & Hds & Hs & Ht & Hd).
  cbn [init_state st_total_sks st_total_bobot st_detail] in Hs, Ht, Hd.
  rewrite Z.add_0_l in Hs. cbn [app] in Hd.
  destruct (Z.eqb_spec (st_total_sks st) 0) as [|Hn]; [discriminate|].
  destruct (float_div_int_nonzero (st_total_bobot st) _ Hn)
    as [Hf | (y & Hy & Hf)]; rewrite Hf in H; [discriminate|].
  cbn [bind ret] in H. injection H as <-.
  exists row0, rest, ps, ds, y. rewrite <- Hs, Ht, Hd.
  repeat split; assumption.
Qed.

Lemma traverse_nth {A B : Type} (f : A -> option B) (l : list A) :
  forall bs, traverse f l = Some bs ->
    List.length bs = List.length l
    /\ forall i a, nth_error l i = Some a ->
         exists b, nth_error bs i = Some b /\ f a = Some b.
Proof.
  induction l as [ | x l IH ]; intros bs; simpl.
  - intros [= <-]. split; [reflexivity|]. intros [ | i] a; discriminate.
  - destruct (f x) as [b|] eqn:Hb; [|discriminate].
    destruct (traverse f l) as [bs'|]; [|discriminate].
    intros [= <-]. destruct (IH bs' eq_refl) as [Hlen Hnth].
    split; [simpl; congruence|].
    intros [ | i] a; simpl.
    + intros [= <-]. exists b. split; [reflexivity|assumption].
    + apply Hnth.
Qed.

Lemma traverse_permutation {A B : Type} (f : A -> option B) (l l' : list A) :
  Permutation l l' ->
  forall bs, traverse f l = Some bs ->
    exists bs', traverse f l' = Some bs' /\ Permutation bs bs'.
Proof.
  induction 1 as [ | x l l' _ IH | x y l | l l' l'' _ IH1 _ IH2 ];
    intros bs; simpl.
  - intros [= <-]. exists []. split; [reflexivity|constructor].
  - destruct (f x) as [b|]; [|discriminate].
    destruct (traverse f l) as [bl|]; [|discriminate].
    intros [= <-]. destruct (IH bl eq_refl) as (bl' & -> & Hp).
    exists (b :: bl'). split; [reflexivity|constructor; assumption].
  - destruct (f y) as [b|]; [|discriminate].
    destruct (f x) as [c|]; [|discriminate].
    destruct (traverse f l) as [bl|]; [|discriminate].
    intros [= <-]. exists (c :: b :: bl). split; [reflexivity|constructor].
  - intros H. destruct (IH1 bs H) as (bs' & H' & Hp').
    destruct (IH2 bs' H') as (bs'' & H'' & Hp'').
    exists bs''. split; [assumption|]. eapply perm_trans; eassumption.
Qed.

Lemma sums_permutation (rows rows' : list krs_row) :
  Permutation rows rows' ->
  sum_sks rows = sum_sks rows' /\ sum_abs_sks rows = sum_abs_sks rows'
  /\ sum_bobot100 rows = sum_bobot100 rows'.
Proof.
  unfold sum_sks, sum_abs_sks, sum_bobot100.
  induction 1 as [ | x l l' _ IH | x y l | l l' l'' _ IH1 _ IH2 ];
    cbn [fold_right]; lia.
Qed.

(** In the exact range the average is a hundredth nearest to the exact
    average, and the rounded exact average away from the ties. *)
Lemma get_ips_nearest (nim : string) (rows : list krs_row) :
  Forall valid_grade rows -> Forall (fun row => 0 <= row_sks row) rows ->
  0 < sum_sks rows < 2 ^ 43 ->
  exists r,
    get_ips nim (Rows rows) = inr r
    /\ total_sks r = sum_sks rows
    /\ total_bobot r = dec (sum_bobot100 rows) 2
    /\ (exists n, ips r = dec n 2
                  /\ 2 * Z.abs (sum_bobot100 rows - n * sum_sks rows)
                     <= sum_sks rows)
    /\ (2 * (sum_bobot100 rows mod sum_sks rows) <> sum_sks rows ->
        ips r = dec (div_half_even (sum_bobot100 rows) (sum_sks rows)) 2).
Proof.
  intros Hv Hp Hs.
  destruct (sum_nonneg rows Hv Hp) as [Habs HK].
  pose proof (sum_quarters_bound rows Hv) as HQ.
  destruct (get_ips_exact nim rows Hv) as (r & Hr & H1 & H2 & H3); try lia.
  exists r. repeat (split; [assumption|]).
  rewrite H3, (sum_bobot100_quarters _ Hv), dec_quarters, dec_int by lia.
  destruct (sum_sks rows) as [ | T | T ] eqn:HT; try lia.
  destruct (sum_quarters rows) as [ | K | K ] eqn:HKe; try lia.
  - split; [exists 0; split; [reflexivity|lia]|]. intros _. reflexivity.
  - split.
    + destruct (round_div_q4_near K T) as (n & Hn & Hb); try lia.
      exists n. split; [assumption|]. lia.
    + intros Htie.
      pose proof (div_half_even_spec (25 * Zpos K) (Zpos T) ltac:(lia) Htie).
      apply round_div_q4; lia.
Qed.

Lemma sum_bobot100_range (rows : list krs_row) :
  Forall valid_grade rows -> Forall (fun row => 0 <= row_sks row) rows ->
  0 <= sum_bobot100 rows <= 400 * sum_sks rows.
Proof.
  intros Hv Hp. induction Hp as [ | row rows Hr _ IH ]; [simpl; lia|].
  inversion Hv as [ | ? ? Hv1 Hv2 ]; subst.
  unfold sum_bobot100, sum_sks in *. cbn [fold_right].
  destruct (valid_grade_weight row Hv1) as (q & Hq & _ & -> & _).
  specialize (IH Hv2). nia.
Qed.

Lemma sum_bobot100_uniform (rows : list krs_row) (grade : string) (w : Z) :
  dict_get grade_weight_table grade = Some w ->
  Forall (fun row => normalize (row_nilai row) = grade) rows ->
  sum_bobot100 rows = w * sum_sks rows.
Proof.
  intros Hw H. induction H as [ | row rows Hr _ IH ]; [simpl; lia|].
  unfold sum_bobot100, sum_sks in *. cbn [fold_right].
  unfold row_bobot100 at 1. rewrite Hr, Hw, IH. lia.
Qed.

(** The product shown for a row is the product itself: rounding a
    multiple of 0.25 to 2 decimals changes nothing. *)
Lemma add_round_mul_quarters (K q z : Z) :
  0 <= q <= 16 -> Z.abs z < 2 ^ 49 ->
  Z.abs K < 2 ^ 53 -> Z.abs (K + q * z) < 2 ^ 53 ->
  add (of_quarters K) (round (mul (of_quarters q) (of_quarters (4 * z))) 2)
  = of_quarters (K + q * z).
Proof.
  intros Hq Hz HK HKz.
  assert (Hr : round (mul (of_quarters q) (of_quarters (4 * z))) 2
               = mul (of_quarters q) (of_quarters (4 * z))).
  { destruct q as [ | a | a ]; try lia.
    - destruct (mul_zero_l (4 * z)) as [s ->]. reflexivity.
    - destruct z as [ | p | p ]; [reflexivity| | ].
      + change (of_quarters (4 * Zpos p)) with (q4 false (4 * p)).
        change (of_quarters (Zpos a)) with (q4 false a).
        rewrite mul_q4 by nia. apply round_q4. nia.
      + change (of_quarters (4 * Zneg p)) with (q4 true (4 * p)).
        change (of_quarters (Zpos a)) with (q4 false a).
        rewrite mul_q4 by nia. apply round_q4. nia. }
  rewrite Hr. apply add_mul_quarters; assumption.
Qed.

Lemma details_add_up (rows : list krs_row) :
  Forall valid_grade rows ->
  forall (K : Z) (details : list detail_row),
    Z.abs K + 16 * sum_abs_sks rows < 2 ^ 53 ->
    traverse row_detail rows = Some details ->
    fold_left add (map d_bobot_x_sks details) (of_quarters K)
    = of_quarters (K + sum_quarters rows).
Proof.
  induction 1 as [ | row rows Hv Hvs IH ]; intros K details Hb; simpl.
  - intros [= <-]. simpl. f_equal. lia.
  - assert (Habs : 0 <= sum_abs_sks rows).
    { clear. induction rows as [ | r l IHl ]; simpl; lia. }
    cbn [sum_abs_sks fold_right] in Hb. fold (sum_abs_sks rows) in Hb.
    destruct (valid_grade_weight row Hv) as (q & Hq & Hw & _ & Hrq).
    assert (Hy : of_int (row_sks row) = Some (of_quarters (4 * row_sks row)))
      by (apply of_int_quarters; lia).
    unfold row_detail at 1, row_product. rewrite Hw, Hy.
    destruct (traverse row_detail rows) as [ds|] eqn:Hds; [|discriminate].
    intros [= <-]. cbn [map fold_left d_bobot_x_sks].
    change (match row_sks row with
            | 0 => 0
            | Z.pos y' => Z.pos (y'~0)~0
            | Z.neg y' => Z.neg (y'~0)~0
            end) with (4 * row_sks row).
    rewrite add_round_mul_quarters by nia.
    rewrite (IH (K + q * row_sks row) ds) by (nia || reflexivity).
    rewrite Hrq. f_equal. lia.
Qed.

End GetIpsFacts.

(** * Facts about ASCII tokens *)

Module AsciiFacts.

Import PyStr Acad PyStrFacts AcadFacts.
Local Open Scope string_scope.

Lemma isspace_isascii (c : ascii) :
  isspace c = true -> isascii_char c = true.
Proof.
  destruct c as [[|] [|] [|] [|] [|] [|] [|] [|]]; vm_compute;
    congruence.
Qed.

Lemma upper_char_isascii (c : ascii) :
  isascii_char (upper_char c) = isascii_char c.
Proof.
  destruct c as [[|] [|] [|] [|] [|] [|] [|] [|]]; reflexivity.
Qed.

Lemma isascii_upper (s : string) : isascii (upper s) = isascii s.
Proof.
  induction s as [ | c s IH ]; [reflexivity|].
  simpl. rewrite upper_char_isascii, IH. reflexivity.
Qed.

Lemma lstrip_isascii (s : string) :
  isascii (lstrip s) = true -> isascii s = true.
Proof.
  induction s as [ | c s IH ]; [reflexivity|]. simpl.
  destruct (isspace c) eqn:Hc; [|trivial].
  intros H. rewrite (isspace_isascii c Hc), (IH H). reflexivity.
Qed.

Lemma rstrip_empty_isascii (s : string) :
  rstrip s = EmptyString -> isascii s = true.
Proof.
  induction s as [ | c s IH ]; [reflexivity|]. simpl.
  destruct (rstrip s) as [ | d t ]; [|discriminate].
  destruct (isspace c) eqn:Hc; [|discriminate].
  intros _. rewrite (isspace_isascii c Hc), IH; reflexivity.
Qed.

Lemma rstrip_isascii (s : string) :
  isascii (rstrip s) = true -> isascii s = true.
Proof.
  induction s as [ | c s IH ]; [reflexivity|]. simpl.
  destruct (rstrip s) as [ | d t ] eqn:Hr.
  - pose proof (rstrip_empty_isascii s Hr) as Hs. rewrite Hs.
    destruct (isspace c) eqn:Hc.
    + intros _. rewrite (isspace_isascii c Hc). reflexivity.
    + simpl. rewrite !andb_true_r. trivial.
  - cbn [isascii]. intros H. apply andb_true_iff in H as [H1 H2].
    rewrite H1. cbn [isascii] in IH. rewrite (IH H2). reflexivity.
Qed.

Lemma normalize_isascii (token : string) :
  isascii (normalize token) = true -> isascii token = true.
Proof.
  unfold normalize, strip. rewrite isascii_upper. intros H.
  apply lstrip_isascii, rstrip_isascii, H.
Qed.

(** A grade of the table is stored as ASCII text. *)
Lemma valid_grade_ascii (row : krs_row) : valid_grade row -> ascii_grade row.
Proof.
  unfold valid_grade, ascii_grade. intros H. apply normalize_isascii.
  simpl in H.
  repeat (destruct H as [<- | H]; [reflexivity|]). contradiction.
Qed.

Lemma isascii_lower (s : string) : isascii (lower s) = isascii s.
Proof.
  induction s as [ | c s IH ]; [reflexivity|].
  simpl. rewrite IH. f_equal.
  destruct c as [[|] [|] [|] [|] [|] [|] [|] [|]]; reflexivity.
Qed.

End AsciiFacts.

(** * Facts about the rows as the driver returns them *)

Module AcadRawFacts.

Import PyStr PyFloat Acad PyStrFacts PyFloatFacts AcadFacts.
Local Open Scope Z_scope.
Local Open Scope string_scope.

Lemma typed_raw_of (row : krs_row) : AcadRaw.typed_row (AcadRaw.raw_of row) = Some row.
Proof. destruct row; reflexivity. Qed.

Lemma traverse_raw_of (rows : list krs_row) :
  traverse AcadRaw.typed_row (map AcadRaw.raw_of rows) = Some rows.
Proof.
  induction rows as [ | row rows IH ]; [reflexivity|].
  cbn [map traverse]. rewrite typed_raw_of, IH. reflexivity.
Qed.

Lemma loop_body_typed (st : loop_state) (raw : AcadRaw.raw_row)
    (row : krs_row) :
  AcadRaw.typed_row raw = Some row ->
  AcadRaw.loop_body st raw = loop_body st row.
Proof.
  unfold AcadRaw.typed_row, AcadRaw.loop_body.
  destruct (AcadRaw.raw_sks raw) as [n | cls msg]; [|discriminate].
  intros [= <-]. reflexivity.
Qed.

Lemma loop_typed (raws : list AcadRaw.raw_row) :
  forall (rows : list krs_row) (st : loop_state),
    traverse AcadRaw.typed_row raws = Some rows ->
    AcadRaw.loop raws st = loop rows st.
Proof.
  induction raws as [ | raw raws IH ]; intros rows st; cbn [traverse].
  - intros [= <-]. reflexivity.
  - destruct (AcadRaw.typed_row raw) as [row|] eqn:Hrow; [|discriminate].
    destruct (traverse AcadRaw.typed_row raws) as [rest|]; [|discriminate].
    intros [= <-]. cbn [AcadRaw.loop loop].
    rewrite (loop_body_typed st raw row Hrow).
    destruct (loop_body st row) as [e | st1]; [reflexivity|].
    cbn [bind]. apply IH. reflexivity.
Qed.


(** The exceptions the loop can end with. *)
Lemma loop_raw_inl (raws : list AcadRaw.raw_row) :
  forall (st : loop_state) (e : exn),
    AcadRaw.loop raws st = inl e ->
    (exists token, e = invalid_grade token)
    \/ e = Exception OverflowError "int too large to convert to float"
    \/ (exists pre row post cls msg,
          raws = (pre ++ row :: post)%list
          /\ AcadRaw.raw_sks row = AcadRaw.NotInt cls msg
          /\ e = Exception cls msg).
Proof.
  induction raws as [ | raw raws IH ]; intros st e; cbn [AcadRaw.loop];
    [discriminate|].
  destruct (AcadRaw.loop_body st raw) as [e1 | st1] eqn:Hb; cbn [bind].
  - intros [= <-]. unfold AcadRaw.loop_body in Hb.
    destruct (AcadRaw.raw_sks raw) as [n | cls msg] eqn:Hs;
      cbn [AcadRaw.int bind ret raise] in Hb.
    + destruct (loop_body_inl _ _ _ Hb) as [-> | ->].
      * left. eexists. reflexivity.
      * right. left. reflexivity.
    + injection Hb as <-. right. right.
      exists [], raw, raws, cls, msg. repeat split. assumption.
  - intros H. destruct (IH st1 e H)
      as [Ht | [Ho | (pre & row & post & cls & msg & -> & Hs & ->)]].
    + left. assumption.
    + right. left. assumption.
    + right. right. exists (raw :: pre), row, post, cls, msg.
      repeat split. assumption.
Qed.

Lemma loop_raw_app (pre post : list AcadRaw.raw_row) (st : loop_state) :
  AcadRaw.loop (pre ++ post) st
  = (st' <- AcadRaw.loop pre st ;; AcadRaw.loop post st').
Proof.
  revert st. induction pre as [ | raw pre IH ]; intros st; [reflexivity|].
  cbn [app AcadRaw.loop].
  destruct (AcadRaw.loop_body st raw) as [e | st1]; [reflexivity|].
  cbn [bind]. apply IH.
Qed.

End AcadRawFacts.

(** * Facts about grades that normalize alike *)

Module NormalizedFacts.

Import PyStr PyFloat Acad PyStrFacts PyFloatFacts AcadFacts GetIpsFacts.
Local Open Scope Z_scope.
Local Open Scope string_scope.





End NormalizedFacts.

(** * The claims *)

Module Claims.

Import PyStr PyFloat Acad PyStrFacts PyFloatFacts AcadFacts.
Import GetIpsFacts NormalizedFacts.
Local Open Scope Z_scope.
Local Open Scope string_scope.

Ltac valid_rows :=
  repeat constructor; unfold valid_grade; simpl; tauto.

Ltac convertible_rows :=
  repeat constructor; unfold row_convertible, convertible;
  vm_compute; discriminate.

(** C1 as stated fails: for the grades B- (1 credit hour), B (6) and C (3)
    the exact average is 26.75 / 10 = 2.675, which rounds to 2.68 (ties
    to even as well as ties upwards), but the handler answers 2.67: the
    binary64 quotient lies just below 2.675. *)
Lemma ips_tie_counterexample :
  Forall valid_grade tie_rows
  /\ 0 < sum_sks tie_rows
  /\ sum_bobot100 tie_rows = 2675 /\ sum_sks tie_rows = 10
  /\ div_half_even (sum_bobot100 tie_rows) (sum_sks tie_rows) = 268
  /\ div_half_up (sum_bobot100 tie_rows) (sum_sks tie_rows) = 268
  /\ (exists r, get_ips "22004" (Rows tie_rows) = inr r
                /\ total_sks r = 10
                /\ total_bobot r = dec 2675 2
                /\ ips r = dec 267 2)
  /\ ~ (exists r, get_ips "22004" (Rows tie_rows) = inr r
                  /\ ips r = dec (div_half_even (sum_bobot100 tie_rows)
                                                (sum_sks tie_rows)) 2)
  /\ ~ (exists r, get_ips "22004" (Rows tie_rows) = inr r
                  /\ ips r = dec (div_half_up (sum_bobot100 tie_rows)
                                              (sum_sks tie_rows)) 2).
Proof.
  split; [valid_rows|].
  repeat (split; [reflexivity|]).
  split; [eexists; repeat split|].
  split; intros (r & Hr & Hi); vm_compute in Hr; injection Hr as <-;
    vm_compute in Hi; discriminate.
Qed.

(** C1, amended: for rows with valid grades, no negative credit hours
    and a positive total of credit hours below 2^43, the handler
    succeeds; total_sks is the sum of the credit hours, total_bobot is the
    exact sum of weight times credit hours, and ips is the binary64
    quotient of these two sums rounded to 2 decimals by Python's round.
    That is a number of 2 decimals within 0.005 of the exact average, and
    whenever the exact average is not half-way between two hundredths it
    is the exact average rounded to 2 decimals. *)
Theorem ips_of_valid_rows (nim : string) (rows : list krs_row) :
  Forall valid_grade rows -> Forall (fun row => 0 <= row_sks row) rows ->
  0 < sum_sks rows -> sum_sks rows < 2 ^ 43 ->
  exists r,
    get_ips nim (Rows rows) = inr r
    /\ total_sks r = sum_sks rows
    /\ total_bobot r = dec (sum_bobot100 rows) 2
    /\ ips r = round (div (dec (sum_bobot100 rows) 2) (dec (sum_sks rows) 0)) 2
    /\ (exists n, ips r = dec n 2
                  /\ 2 * Z.abs (sum_bobot100 rows - n * sum_sks rows)
                     <= sum_sks rows)
    /\ (2 * (sum_bobot100 rows mod sum_sks rows) <> sum_sks rows ->
        ips r = dec (div_half_even (sum_bobot100 rows) (sum_sks rows)) 2).
Proof.
  intros Hv Hp Hs0 Hs1. assert (Hs : 0 < sum_sks rows < 2 ^ 43) by lia.
  destruct (sum_nonneg rows Hv Hp) as [Habs HK].
  pose proof (sum_quarters_bound rows Hv) as HQ.
  destruct (get_ips_exact nim rows Hv) as (r & Hr & H1 & H2 & H3); try lia.
  exists r. repeat (split; [assumption|]).
  rewrite H3, (sum_bobot100_quarters _ Hv), dec_quarters, dec_int by lia.
  destruct (sum_sks rows) as [ | T | T ] eqn:HT; try lia.
  destruct (sum_quarters rows) as [ | K | K ] eqn:HKe; try lia.
  - split; [exists 0; split; [reflexivity|lia]|]. intros _. reflexivity.
  - split.
    + destruct (round_div_q4_near K T) as (n & Hn & Hb); try lia.
      exists n. split; [assumption|]. lia.
    + intros Htie.
      pose proof (div_half_even_spec (25 * Zpos K) (Zpos T) ltac:(lia) Htie).
      apply round_div_q4; lia.
Qed.

Lemma ips_of_valid_rows_witness :
  Forall valid_grade scenario_rows
  /\ Forall (fun row => 0 <= row_sks row) scenario_rows
  /\ 0 < sum_sks scenario_rows /\ sum_sks scenario_rows < 2 ^ 43
  /\ exists r,
       get_ips "22002" (Rows scenario_rows) = inr r
       /\ total_sks r = 7
       /\ total_bobot r = dec 2600 2
       /\ ips r = dec 371 2.
Proof.
  assert (Hv : Forall valid_grade scenario_rows) by valid_rows.
  assert (Hp : Forall (fun row => 0 <= row_sks row) scenario_rows)
    by (repeat constructor; discriminate).
  assert (Hs : 0 < sum_sks scenario_rows) by reflexivity.
  assert (Hb : sum_sks scenario_rows < 2 ^ 43) by reflexivity.
  repeat (split; [assumption|]).
  destruct (ips_of_valid_rows "22002" scenario_rows Hv Hp Hs Hb)
    as (r & Hr & H1 & H2 & _ & _ & H4).
  exists r. repeat (split; [assumption|]).
  apply H4. discriminate.
Defined.




(** C3: when the join returns no row, the handler fails with HTTP 404 and
    returns no result. *)
Theorem no_rows_not_found (nim : string) :
  get_ips nim (Rows [])
  = inl (HTTPException 404 ("Data KRS untuk NIM " ++ nim ++ " tidak ditemukan")).
Proof. reflexivity. Qed.

(** C4 as stated fails: the rows (A, 2^1024) and (A, -2^1024) carry valid
    grades and credit hours that add up to zero, but the handler answers
    500, not "Total SKS = 0": the product of the first row raises
    OverflowError before the total is looked at. *)
Lemma zero_total_overflow_counterexample :
  [sample_row "22013" "A" (2 ^ 1024); sample_row "22013" "A" (- 2 ^ 1024)]
  <> []
  /\ Forall valid_grade
       [sample_row "22013" "A" (2 ^ 1024);
        sample_row "22013" "A" (- 2 ^ 1024)]
  /\ sum_sks [sample_row "22013" "A" (2 ^ 1024);
              sample_row "22013" "A" (- 2 ^ 1024)] = 0
  /\ get_ips "22013"
       (Rows [sample_row "22013" "A" (2 ^ 1024);
              sample_row "22013" "A" (- 2 ^ 1024)])
     = inl (HTTPException 500 "int too large to convert to float")
  /\ get_ips "22013"
       (Rows [sample_row "22013" "A" (2 ^ 1024);
              sample_row "22013" "A" (- 2 ^ 1024)])
     <> inl zero_sks.
Proof.
  split; [discriminate|]. split; [valid_rows|].
  split; [vm_compute; reflexivity|].
  split; [vm_compute; reflexivity|]. vm_compute. discriminate.
Qed.

(** C4, amended: the handler body never raises ZeroDivisionError, whatever the
    storage returned; rows that are not empty, carry valid grades and
    convertible credit hours adding up to zero are answered with HTTP 400
    "Total SKS = 0"; so is the single row with grade C and 0 credit hours. *)
Theorem zero_credit_hours_guarded (nim : string) (db : fetched krs_row)
    (rows : list krs_row) :
  (forall msg, get_ips_body nim db <> inl (Exception ZeroDivisionError msg))
  /\ (rows <> [] -> Forall valid_grade rows -> Forall row_convertible rows ->
      sum_sks rows = 0 ->
      get_ips nim (Rows rows)
      = inl (HTTPException 400 "Total SKS = 0, IPS tidak bisa dihitung"))
  /\ get_ips nim (Rows [sample_row "22003" "C" 0])
     = inl (HTTPException 400 "Total SKS = 0, IPS tidak bisa dihitung").
Proof.
  split; [intros msg; apply no_zero_division|].
  split; [apply get_ips_zero_total|reflexivity].
Qed.

Lemma zero_credit_hours_guarded_witness :
  [sample_row "22003" "C" 2; sample_row "22003" "A" (-2)] <> []
  /\ Forall valid_grade [sample_row "22003" "C" 2; sample_row "22003" "A" (-2)]
  /\ Forall row_convertible
       [sample_row "22003" "C" 2; sample_row "22003" "A" (-2)]
  /\ sum_sks [sample_row "22003" "C" 2; sample_row "22003" "A" (-2)] = 0
  /\ get_ips "22003"
       (Rows [sample_row "22003" "C" 2; sample_row "22003" "A" (-2)])
     = inl (HTTPException 400 "Total SKS = 0, IPS tidak bisa dihitung").
Proof.
  assert (Hn : [sample_row "22003" "C" 2; sample_row "22003" "A" (-2)] <> [])
    by discriminate.
  assert (Hv : Forall valid_grade
                 [sample_row "22003" "C" 2; sample_row "22003" "A" (-2)])
    by valid_rows.
  assert (Hc : Forall row_convertible
                 [sample_row "22003" "C" 2; sample_row "22003" "A" (-2)])
    by convertible_rows.
  assert (Hs : sum_sks [sample_row "22003" "C" 2; sample_row "22003" "A" (-2)]
               = 0) by reflexivity.
  repeat (split; [assumption|]).
  exact (proj1 (proj2 (zero_credit_hours_guarded "22003" (Rows []) _))
           Hn Hv Hc Hs).
Defined.



(** C6: the rows (A, 3 credit hours) and (B+, 4 credit hours) give
    total_sks = 7, total_bobot = 26.0 and ips = 3.71. *)
Theorem two_rows_scenario (q n1 a1 j1 n2 a2 j2 : string) :
  get_ips q
    (Rows [ {| row_nim := n1; row_nama := a1; row_jurusan := j1;
               row_nilai := "A"; row_sks := 3 |};
            {| row_nim := n2; row_nama := a2; row_jurusan := j2;
               row_nilai := "B+"; row_sks := 4 |} ])
  = inr {| r_nim := n1; r_nama := a1; r_jurusan := j1;
           total_sks := 7;
           total_bobot := dec 260 1;
           ips := dec 371 2;
           detail_perhitungan :=
             [ {| d_nilai := "A"; d_sks := 3; d_bobot := dec 40 1;
                  d_bobot_x_sks := dec 120 1 |};
               {| d_nilai := "B+"; d_sks := 4; d_bobot := dec 35 1;
                  d_bobot_x_sks := dec 140 1 |} ] |}.
Proof. reflexivity. Qed.

(** C7: in a successful answer each detail record holds the normalized
    grade, the credit hours, the weight of the grade and the product
    rounded to 2 decimals; total_sks and the running total of quality
    points are accumulated from the unrounded values, and only the total
    shown and the average are rounded to 2 decimals. *)
Theorem rounding_only_for_display (nim : string) (rows : list krs_row)
    (r : ips_response) :
  get_ips nim (Rows rows) = inr r ->
  exists products details y,
    traverse row_product rows = Some products
    /\ traverse row_detail rows = Some details
    /\ of_int (sum_sks rows) = Some y
    /\ detail_perhitungan r = details
    /\ total_sks r = sum_sks rows
    /\ total_bobot r = round (unrounded_total products) 2
    /\ ips r = round (div (unrounded_total products) y) 2.
Proof.
  destruct rows as [ | row0 rest ]; [discriminate|].
  unfold get_ips. rewrite get_ips_rows.
  destruct (loop (row0 :: rest) init_state) as [e | st] eqn:Hl.
  - destruct e; discriminate.
  - cbn [bind].
    destruct (loop_inr _ _ _ Hl) as (ps & ds & Hps & Hds & Hs & Ht & Hd).
    cbn [init_state st_total_sks st_total_bobot st_detail] in Hs, Ht, Hd.
    rewrite Z.add_0_l in Hs. cbn [app] in Hd.
    destruct (Z.eqb_spec (st_total_sks st) 0) as [|Hn]; [discriminate|].
    destruct (float_div_int_nonzero (st_total_bobot st) _ Hn)
      as [-> | (y & Hy & ->)]; [discriminate|].
    cbn [bind ret try_except]. intros [= <-].
    exists ps, ds, y. cbn [detail_perhitungan total_sks total_bobot ips].
    rewrite <- Hs, Ht. repeat split; assumption.
Qed.

Lemma rounding_only_for_display_witness :
  exists r,
    get_ips "22002" (Rows [sample_row "22002" "A" 3; sample_row "22002" "B+" 4])
    = inr r
    /\ exists products details y,
         traverse row_product
           [sample_row "22002" "A" 3; sample_row "22002" "B+" 4] = Some products
         /\ traverse row_detail
              [sample_row "22002" "A" 3; sample_row "22002" "B+" 4]
            = Some details
         /\ of_int (sum_sks [sample_row "22002" "A" 3;
                             sample_row "22002" "B+" 4]) = Some y
         /\ detail_perhitungan r = details
         /\ total_sks r = sum_sks [sample_row "22002" "A" 3;
                                   sample_row "22002" "B+" 4]
         /\ total_bobot r = round (unrounded_total products) 2
         /\ ips r = round (div (unrounded_total products) y) 2.
Proof.
  eexists. split; [reflexivity|].
  exact (rounding_only_for_display "22002"
           [sample_row "22002" "A" 3; sample_row "22002" "B+" 4] _ eq_refl).
Defined.

(** C8: the listing returns one object per stored row, in the order of
    the rows, each with the four columns unchanged under the keys nim,
    nama, jurusan and angkatan; a storage failure is answered with 500. *)
Theorem list_students_unchanged (rows : list mahasiswa_row) (msg : string) :
  get_mahasiswas (Rows rows) = inr (map mahasiswa_of_row rows)
  /\ List.length (map mahasiswa_of_row rows) = List.length rows
  /\ (forall i,
        nth_error (map mahasiswa_of_row rows) i
        = option_map mahasiswa_of_row (nth_error rows i))
  /\ (forall c0 c1 c2 c3,
        mahasiswa_of_row (c0, c1, c2, c3)
        = {| nim := c0; nama := c1; jurusan := c2; angkatan := c3 |})
  /\ get_mahasiswas (DbError msg) = inl (HTTPException 500 msg).
Proof.
  split.
  - unfold get_mahasiswas, fetchall, ret, bind, except_exception.
    f_equal. apply map_ext. intros [[[c0 c1] c2] c3]. reflexivity.
  - split; [apply length_map|].
    split; [intros i; apply nth_error_map|].
    split; reflexivity.
Qed.

(** C9 as stated fails: one row graded E with the positive credit hours
    2^1024 is not answered with a result: the product 0.0 * sks converts
    the credit hours to float, which raises OverflowError, and the
    handler answers 500. *)
Lemma all_e_overflow_counterexample :
  Forall valid_grade [sample_row "22014" "E" (2 ^ 1024)]
  /\ Forall (fun row => normalize (row_nilai row) = "E")
       [sample_row "22014" "E" (2 ^ 1024)]
  /\ Forall (fun row => 0 < row_sks row) [sample_row "22014" "E" (2 ^ 1024)]
  /\ get_ips "22014" (Rows [sample_row "22014" "E" (2 ^ 1024)])
     = inl (HTTPException 500 "int too large to convert to float")
  /\ ~ (exists r,
          get_ips "22014" (Rows [sample_row "22014" "E" (2 ^ 1024)])
          = inr r).
Proof.
  split; [valid_rows|].
  split; [repeat constructor|].
  split; [repeat constructor|].
  split; [vm_compute; reflexivity|].
  intros [r Hr]. vm_compute in Hr. discriminate.
Qed.

(** C9, amended: for rows that are not empty, with valid grades and convertible
    credit hours, the handler answers "Total SKS = 0" exactly when the
    credit hours add up to zero; rows all graded E with positive credit
    hours (and a convertible total) succeed with total_bobot = 0.0 and
    ips = 0.0. *)
Theorem zero_credit_hours_iff (nim : string) (rows : list krs_row) :
  rows <> [] -> Forall valid_grade rows -> Forall row_convertible rows ->
  (get_ips nim (Rows rows)
   = inl (HTTPException 400 "Total SKS = 0, IPS tidak bisa dihitung")
   <-> sum_sks rows = 0)
  /\ (Forall (fun row => normalize (row_nilai row) = "E") rows ->
      Forall (fun row => 0 < row_sks row) rows ->
      convertible (sum_sks rows) ->
      exists r,
        get_ips nim (Rows rows) = inr r
        /\ total_sks r = sum_sks rows
        /\ total_bobot r = dec 0 1
        /\ ips r = dec 0 1).
Proof.
  intros Hne Hv Hc. split.
  - split.
    + intros Hz. destruct (Z.eq_dec (sum_sks rows) 0) as [|Hs]; [assumption|].
      exfalso. exact (get_ips_nonzero_total nim rows Hne Hv Hc Hs Hz).
    + apply get_ips_zero_total; assumption.
  - intros HE Hp Hs. apply get_ips_all_E; assumption.
Qed.

Lemma zero_credit_hours_iff_witness :
  e_rows <> [] /\ Forall valid_grade e_rows /\ Forall row_convertible e_rows
  /\ (get_ips "22006" (Rows e_rows)
      = inl (HTTPException 400 "Total SKS = 0, IPS tidak bisa dihitung")
      <-> sum_sks e_rows = 0)
  /\ exists r,
       get_ips "22006" (Rows e_rows) = inr r
       /\ total_sks r = sum_sks e_rows
       /\ total_bobot r = dec 0 1
       /\ ips r = dec 0 1.
Proof.
  assert (Hn : e_rows <> []) by discriminate.
  assert (Hv : Forall valid_grade e_rows) by valid_rows.
  assert (Hc : Forall row_convertible e_rows) by convertible_rows.
  repeat (split; [assumption|]).
  split.
  - exact (proj1 (zero_credit_hours_iff "22006" e_rows Hn Hv Hc)).
  - apply (proj2 (zero_credit_hours_iff "22006" e_rows Hn Hv Hc)).
    + repeat constructor.
    + repeat constructor.
    + unfold convertible. vm_compute. discriminate.
Defined.



End Claims.

(** * The connection manager, the start-up hook and the handlers *)

Module Coverage.

Import PyStr PyFloat Acad AcadIO PyStrFacts PyFloatFacts AcadFacts.
Import ConnectionFacts GetIpsFacts AcadRawFacts.
Local Open Scope Z_scope.
Local Open Scope string_scope.

Ltac grades_valid :=
  repeat constructor; unfold valid_grade; simpl; tauto.

Ltac sks_convertible :=
  repeat constructor; unfold row_convertible, convertible;
  vm_compute; discriminate.

(** X1: [Close] is called exactly once, as the last call, on every run
    that connected, and never on a run that did not; a body that only
    prints is assumed. *)
Theorem connection_closed_once (A : Type) (db : db_faults) (body : io A) :
  prints_only (fst body) ->
  filter is_close (fst (get_db_connection db body))
  = match on_connect db with
    | None => [Close]
    | Some _ => []
    end
  /\ (on_connect db = None ->
      exists log, fst (get_db_connection db body)
                  = (Connect :: log ++ [Close])%list).
Proof.
  intros Hp. run_connection db body; cbn [fst] in Hp;
    cbn [filter is_close]; rewrite ?filter_app; cbn [filter is_close];
    rewrite ?(no_close log Hp); cbn [app];
    (split; [reflexivity|]); intros Hc; try discriminate;
    rewrite ?app_nil_r; eexists; reflexivity.
Qed.

Lemma connection_closed_once_witness :
  prints_only (fst (print "ok"))
  /\ filter is_close (fst (get_db_connection no_faults (print "ok")))
     = [Close]
  /\ exists log,
       fst (get_db_connection no_faults (print "ok"))
       = (Connect :: log ++ [Close])%list.
Proof.
  assert (Hp : prints_only (fst (print "ok"))) by (repeat constructor).
  split; [exact Hp|]. split.
  - exact (proj1 (connection_closed_once unit no_faults (print "ok") Hp)).
  - exact (proj2 (connection_closed_once unit no_faults (print "ok") Hp)
             eq_refl).
Defined.

(** X2: [Commit] is called only after a body that ended normally, and
    [Rollback] exactly when the body or the commit raised. *)
Theorem commit_and_rollback_discipline (A : Type) (db : db_faults)
    (body : io A) :
  prints_only (fst body) ->
  filter is_commit (fst (get_db_connection db body))
  = match on_connect db, snd body with
    | None, inr _ => [Commit]
    | _, _ => []
    end
  /\ filter is_rollback (fst (get_db_connection db body))
     = match on_connect db, snd body, on_commit db with
       | None, inl _, _ => [Rollback]
       | None, inr _, Some _ => [Rollback]
       | _, _, _ => []
       end.
Proof.
  intros Hp. run_connection db body; cbn [fst] in Hp;
    cbn [filter is_commit is_rollback]; rewrite ?filter_app;
    cbn [filter is_commit is_rollback];
    rewrite ?(no_commit log Hp), ?(no_rollback log Hp); split; reflexivity.
Qed.

Lemma commit_and_rollback_discipline_witness :
  prints_only (fst (print "ok"))
  /\ filter is_commit (fst (get_db_connection commit_fails (print "ok")))
     = [Commit]
  /\ filter is_rollback (fst (get_db_connection commit_fails (print "ok")))
     = [Rollback].
Proof.
  assert (Hp : prints_only (fst (print "ok"))) by (repeat constructor).
  split; [exact Hp|].
  exact (commit_and_rollback_discipline unit commit_fails (print "ok") Hp).
Defined.

(** X3: the outcome of the [with] block.  A failure to close overrides
    everything; otherwise a failure to roll back overrides the exception
    being handled; otherwise the exception of the body or of the commit
    is raised again unchanged; the value of the body is returned only
    when commit and close both succeed. *)
Theorem connection_outcome (A : Type) (db : db_faults) (body : io A) :
  snd (get_db_connection db body)
  = match on_connect db with
    | Some msg => inl (Exception DatabaseError msg)
    | None =>
        match on_close db with
        | Some msg => inl (Exception DatabaseError msg)
        | None =>
            match snd body, on_commit db, on_rollback db with
            | inr a, None, _ => inr a
            | _, _, Some msg => inl (Exception DatabaseError msg)
            | inr _, Some msg, None => inl (Exception DatabaseError msg)
            | inl e, _, None => inl e
            end
        end
    end.
Proof. run_connection db body; reflexivity. Qed.

(** X4: with a driver that never fails, the handler with its connection
    answers as [get_ips] does, after [Connect], then [Commit] when the
    query succeeded or [Rollback] when it failed, then [Close]. *)
Theorem get_ips_request_no_faults (nim : string) (q : fetched krs_row) :
  get_ips_request no_faults nim q
  = (match q with
     | Rows _ => [Connect; Commit; Close]
     | DbError _ => [Connect; Rollback; Close]
     end,
     get_ips nim q).
Proof.
  rewrite get_ips_request_run. destruct q as [rows | msg]; reflexivity.
Qed.

(** X5: an answer of [get_ips] other than a 500 (a result, a 404 or a
    400) is given only after the transaction was committed and the
    connection closed, with no rollback: the errors raised after the
    [with] block do not undo it. *)
Theorem get_ips_request_committed (db : db_faults) (nim : string)
    (q : fetched krs_row) :
  (forall msg,
     snd (get_ips_request db nim q) <> inl (HTTPException 500 msg)) ->
  fst (get_ips_request db nim q) = [Connect; Commit; Close]
  /\ exists rows,
       q = Rows rows
       /\ snd (get_ips_request db nim q) = get_ips nim (Rows rows).
Proof.
  rewrite get_ips_request_run. cbn [fst snd]. intros H.
  run_query db q; try (exfalso; eapply H; reflexivity);
    (split; [reflexivity|]); exists rows; split; reflexivity.
Qed.

Lemma get_ips_request_committed_witness :
  (forall msg,
     snd (get_ips_request no_faults "22002" (Rows scenario_rows))
     <> inl (HTTPException 500 msg))
  /\ fst (get_ips_request no_faults "22002" (Rows scenario_rows))
     = [Connect; Commit; Close].
Proof.
  assert (H : forall msg,
            snd (get_ips_request no_faults "22002" (Rows scenario_rows))
            <> inl (HTTPException 500 msg))
    by (intros msg; vm_compute; discriminate).
  split; [exact H|].
  exact (proj1 (get_ips_request_committed no_faults "22002"
                  (Rows scenario_rows) H)).
Defined.

(** X6: the listing with its connection succeeds exactly when the query
    and the calls to connect, commit and close all succeed; it then
    returns one object per row after [Connect], [Commit], [Close]; every
    failure is answered with a 500. *)
Theorem get_mahasiswas_request_outcome (db : db_faults)
    (q : fetched mahasiswa_row) :
  (exists rows,
     q = Rows rows /\ on_connect db = None /\ on_commit db = None
     /\ on_close db = None
     /\ get_mahasiswas_request db q
        = ([Connect; Commit; Close], inr (map mahasiswa_of_row rows)))
  \/ ((forall rows, q = Rows rows ->
         on_connect db <> None \/ on_commit db <> None
         \/ on_close db <> None)
      /\ exists msg,
           snd (get_mahasiswas_request db q) = inl (HTTPException 500 msg)).
Proof.
  unfold get_mahasiswas_request. run_query db q;
    try (right; split; [|eexists; reflexivity];
         intros rows' Hq; try discriminate;
         (left; discriminate) || (right; left; discriminate)
         || (right; right; discriminate)).
  all: left; exists rows; repeat (split; [reflexivity|]).
  all: f_equal; f_equal; apply map_ext; intros [[[c0 c1] c2] c3]; reflexivity.
Qed.

Lemma get_mahasiswas_request_outcome_witness :
  get_mahasiswas_request no_faults
    (Rows [("22002", "Budi", "Informatika", 2022)])
  = ([Connect; Commit; Close],
     inr (map mahasiswa_of_row [("22002", "Budi", "Informatika", 2022)])).
Proof.
  destruct (get_mahasiswas_request_outcome no_faults
              (Rows [("22002", "Budi", "Informatika", 2022)]))
    as [(rows & Hq & _ & _ & _ & H) | (H & _)].
  - injection Hq as <-. exact H.
  - destruct (H _ eq_refl) as [Hc | [Hc | Hc]]; exfalso; apply Hc;
      reflexivity.
Defined.

(** X7: the start-up hook never raises.  It prints the line of success
    exactly when the connection was opened, and a line of failure
    exactly when connecting, committing or closing failed; when the
    commit or the close fails it prints both. *)
Theorem startup_event_never_raises (db : db_faults) :
  snd (startup_event db) = inr tt
  /\ (In (Stdout "Acad Service: Connected to PostgreSQL")
         (fst (startup_event db))
      <-> on_connect db = None)
  /\ ((exists msg,
         In (Stdout ("Acad Service: PostgreSQL connection error: " ++ msg))
            (fst (startup_event db)))
      <-> on_connect db <> None \/ on_commit db <> None
          \/ on_close db <> None).
Proof.
  unfold startup_event, get_db_connection, print.
  destruct db as [[c | ] [m | ] [rb | ] [cl | ]];
    cbn [io_bind io_finally io_except io_ret io_raise db_call
         on_connect on_commit on_rollback on_close fst snd app exn_str];
    (split; [reflexivity|]); split; split;
    try solve [ intros _; simpl; tauto ];
    try solve [ intros _; eexists; simpl;
                repeat (first [ left; reflexivity | right ]) ];
    try solve [ intros _; (left; discriminate) || (right; left; discriminate)
                          || (right; right; discriminate) ];
    try solve [ simpl; intros H; intuition discriminate ];
    try solve [ simpl; intros [msg H]; intuition discriminate ].
Qed.

Lemma startup_event_never_raises_witness :
  on_connect commit_fails = None
  /\ on_commit commit_fails <> None
  /\ In (Stdout "Acad Service: Connected to PostgreSQL")
        (fst (startup_event commit_fails))
  /\ exists msg,
       In (Stdout ("Acad Service: PostgreSQL connection error: " ++ msg))
          (fst (startup_event commit_fails)).
Proof.
  assert (Hc : on_connect commit_fails = None) by reflexivity.
  assert (Hm : on_commit commit_fails <> None) by discriminate.
  repeat (split; [assumption|]). split.
  - exact (proj2 (proj1 (proj2 (startup_event_never_raises commit_fails)))
             Hc).
  - exact (proj2 (proj2 (proj2 (startup_event_never_raises commit_fails)))
             (or_intror (or_introl Hm))).
Defined.

(** X8: for rows whose grade tokens are ASCII text, [get_ips] returns a
    result exactly when there is at least one row, every grade is in the
    table, every credit-hour weight converts to float, and the total of
    the credit hours is not zero and converts to float.  No other
    condition is checked: credit hours may be zero or negative. *)
Theorem get_ips_succeeds_iff (nim : string) (rows : list krs_row) :
  Forall ascii_grade rows ->
  ((exists r, get_ips nim (Rows rows) = inr r)
   <-> rows <> [] /\ Forall valid_grade rows /\ Forall row_convertible rows
       /\ sum_sks rows <> 0 /\ convertible (sum_sks rows)).
Proof.
  intros _. split.
  - intros [r Hr].
    destruct (get_ips_inr nim rows r Hr)
      as (row0 & rest & ps & ds & y & -> & Hps & _ & Hs & Hy & _).
    destruct (traverse_product_valid _ ps Hps) as [Hv Hc].
    repeat split; try assumption; try discriminate.
    unfold convertible. rewrite Hy. discriminate.
  - intros (Hne & Hv & Hc & Hs & Hcs).
    destruct rows as [ | row0 rest ]; [contradiction|].
    unfold get_ips. rewrite get_ips_rows.
    destruct (loop_succeeds _ Hv Hc init_state) as (st & -> & Ht).
    cbn [bind]. cbn [init_state st_total_sks] in Ht. rewrite Z.add_0_l in Ht.
    destruct (Z.eqb_spec (st_total_sks st) 0) as [|Hn]; [lia|].
    destruct (float_div_int_nonzero (st_total_bobot st) _ Hn)
      as [Hf | (y & _ & ->)].
    + exfalso. unfold float_div_int in Hf. rewrite Ht in Hf.
      unfold convertible in Hcs.
      destruct (of_int (sum_sks (row0 :: rest))) as [y|]; [|contradiction].
      destruct (is_zero y); discriminate.
    + eexists. reflexivity.
Qed.

Lemma get_ips_succeeds_iff_witness :
  Forall ascii_grade scenario_rows
  /\ (scenario_rows <> [] /\ Forall valid_grade scenario_rows
      /\ Forall row_convertible scenario_rows
      /\ sum_sks scenario_rows <> 0 /\ convertible (sum_sks scenario_rows))
  /\ exists r, get_ips "22002" (Rows scenario_rows) = inr r.
Proof.
  assert (Ha : Forall ascii_grade scenario_rows)
    by (repeat constructor).
  assert (H : scenario_rows <> [] /\ Forall valid_grade scenario_rows
              /\ Forall row_convertible scenario_rows
              /\ sum_sks scenario_rows <> 0
              /\ convertible (sum_sks scenario_rows)).
  { split; [discriminate|]. split; [grades_valid|].
    split; [sks_convertible|]. split; [discriminate|].
    unfold convertible. vm_compute. discriminate. }
  split; [exact Ha|]. split; [exact H|].
  exact (proj2 (get_ips_succeeds_iff "22002" scenario_rows Ha) H).
Defined.

(** X9: every failure of the handler, on rows as the driver returns
    them, is one of six: 404 for no rows, 400 for an unknown grade, 400
    for a zero total, 500 with the message of the storage failure, 500
    for an integer too large for a float, 500 with the message of
    [int(row[4])] for a row whose credit hours are not a number. *)
Theorem get_ips_failures (nim : string) (db : fetched AcadRaw.raw_row) :
  (exists r, AcadRaw.get_ips nim db = inr r)
  \/ (db = Rows [] /\ AcadRaw.get_ips nim db = inl (not_found nim))
  \/ (exists token, AcadRaw.get_ips nim db = inl (invalid_grade token))
  \/ AcadRaw.get_ips nim db = inl zero_sks
  \/ (exists msg, db = DbError msg
                  /\ AcadRaw.get_ips nim db = inl (HTTPException 500 msg))
  \/ AcadRaw.get_ips nim db
     = inl (HTTPException 500 "int too large to convert to float")
  \/ (exists pre row post cls msg,
        db = Rows (pre ++ row :: post)
        /\ AcadRaw.raw_sks row = AcadRaw.NotInt cls msg
        /\ AcadRaw.get_ips nim db = inl (HTTPException 500 msg)).
Proof.
  destruct db as [[ | row0 rest] | msg].
  - right. left. split; reflexivity.
  - unfold AcadRaw.get_ips, AcadRaw.get_ips_body. cbn [fetchall bind ret].
    destruct (AcadRaw.loop (row0 :: rest) init_state) as [e | st] eqn:Hl.
    + destruct (loop_raw_inl _ _ _ Hl)
        as [[token ->] | [-> | (pre & row & post & cls & m & Hrows & Hs & ->)]].
      * right. right. left. exists token. reflexivity.
      * do 5 right. left. reflexivity.
      * do 6 right. exists pre, row, post, cls, m. rewrite Hrows.
        repeat split. assumption.
    + cbn [bind]. destruct (Z.eqb_spec (st_total_sks st) 0) as [|Hn].
      * do 3 right. left. reflexivity.
      * destruct (float_div_int_nonzero (st_total_bobot st) _ Hn)
          as [-> | (y & _ & ->)].
        -- do 5 right. left. reflexivity.
        -- left. eexists. reflexivity.
  - do 4 right. left. exists msg. split; reflexivity.
Qed.

(** X10: a row with a valid grade whose credit hours are too large for a
    float, the rows before it being valid and convertible, makes the
    handler answer 500 "int too large to convert to float", whatever the
    rows after it hold. *)
Theorem overflow_row_rejected (nim : string) (pre post : list krs_row)
    (big : krs_row) :
  Forall valid_grade pre -> Forall row_convertible pre ->
  valid_grade big -> ~ row_convertible big ->
  get_ips nim (Rows (pre ++ big :: post))
  = inl (HTTPException 500 "int too large to convert to float").
Proof.
  intros Hv Hc Hb Hn. unfold get_ips, get_ips_body.
  cbn [fetchall bind ret].
  destruct (pre ++ big :: post)%list as [ | row0 rest ] eqn:Hrows;
    [destruct pre; discriminate|].
  rewrite <- Hrows, loop_app.
  destruct (loop_succeeds pre Hv Hc init_state) as (st & -> & _).
  cbn [bind loop].
  destruct (valid_grade_weight big Hb) as (q & _ & Hw & _).
  unfold loop_body, float_mul_int.
  change (upper (strip (row_nilai big))) with (normalize (row_nilai big)).
  rewrite Hw. unfold row_convertible, convertible in Hn.
  destruct (of_int (row_sks big)) as [y|]; [exfalso; apply Hn; discriminate|].
  reflexivity.
Qed.

Lemma overflow_row_rejected_witness :
  Forall valid_grade [sample_row "22007" "A" 3]
  /\ Forall row_convertible [sample_row "22007" "A" 3]
  /\ valid_grade (sample_row "22007" "B" (2 ^ 1024))
  /\ ~ row_convertible (sample_row "22007" "B" (2 ^ 1024))
  /\ get_ips "22007"
       (Rows ([sample_row "22007" "A" 3]
                ++ sample_row "22007" "B" (2 ^ 1024)
                   :: [sample_row "22007" "Z" 1]))
     = inl (HTTPException 500 "int too large to convert to float").
Proof.
  assert (Hv : Forall valid_grade [sample_row "22007" "A" 3])
    by grades_valid.
  assert (Hc : Forall row_convertible [sample_row "22007" "A" 3])
    by sks_convertible.
  assert (Hb : valid_grade (sample_row "22007" "B" (2 ^ 1024)))
    by (unfold valid_grade; simpl; tauto).
  assert (Hn : ~ row_convertible (sample_row "22007" "B" (2 ^ 1024)))
    by (unfold row_convertible, convertible; vm_compute;
        intros H; apply H; reflexivity).
  repeat (split; [assumption|]).
  exact (overflow_row_rejected "22007" _ [sample_row "22007" "Z" 1] _
           Hv Hc Hb Hn).
Defined.

(** X11: when every row is valid and convertible but the total of the
    credit hours is too large for a float, the handler answers 500 "int
    too large to convert to float": the division converts the total. *)
Theorem overflow_total_rejected (nim : string) (rows : list krs_row) :
  Forall valid_grade rows -> Forall row_convertible rows ->
  ~ convertible (sum_sks rows) ->
  get_ips nim (Rows rows)
  = inl (HTTPException 500 "int too large to convert to float").
Proof.
  intros Hv Hc Hn.
  destruct rows as [ | row0 rest ];
    [exfalso; apply Hn; unfold convertible; simpl; discriminate|].
  unfold get_ips. rewrite get_ips_rows.
  destruct (loop_succeeds _ Hv Hc init_state) as (st & -> & Ht).
  cbn [bind]. cbn [init_state st_total_sks] in Ht. rewrite Z.add_0_l in Ht.
  rewrite Ht.
  destruct (Z.eqb_spec (sum_sks (row0 :: rest)) 0) as [Hz|_].
  - exfalso. apply Hn. rewrite Hz. unfold convertible. simpl. discriminate.
  - unfold float_div_int. unfold convertible in Hn.
    destruct (of_int (sum_sks (row0 :: rest))) as [y|];
      [exfalso; apply Hn; discriminate|reflexivity].
Qed.

Lemma overflow_total_rejected_witness :
  Forall valid_grade huge_rows /\ Forall row_convertible huge_rows
  /\ ~ convertible (sum_sks huge_rows)
  /\ get_ips "22008" (Rows huge_rows)
     = inl (HTTPException 500 "int too large to convert to float").
Proof.
  assert (Hv : Forall valid_grade huge_rows) by grades_valid.
  assert (Hc : Forall row_convertible huge_rows) by sks_convertible.
  assert (Hn : ~ convertible (sum_sks huge_rows))
    by (unfold convertible; vm_compute; intros H; apply H; reflexivity).
  repeat (split; [assumption|]).
  exact (overflow_total_rejected "22008" huge_rows Hv Hc Hn).
Defined.

(** X12: the student named in a result is the one stored in the first
    row; the [nim] of the request appears in the 404 message only, so
    with at least one row two requests with different [nim] get the same
    answer. *)
Theorem identity_from_first_row (nim nim' : string) (row0 : krs_row)
    (rest : list krs_row) :
  get_ips nim (Rows (row0 :: rest)) = get_ips nim' (Rows (row0 :: rest))
  /\ (forall r, get_ips nim (Rows (row0 :: rest)) = inr r ->
        r_nim r = row_nim row0 /\ r_nama r = row_nama row0
        /\ r_jurusan r = row_jurusan row0)
  /\ (nim <> nim' -> get_ips nim (Rows []) <> get_ips nim' (Rows [])).
Proof.
  split; [reflexivity|]. split.
  - intros r Hr.
    destruct (get_ips_inr _ _ _ Hr)
      as (row0' & rest' & ps & ds & y & [= <- <-] & _ & _ & _ & _ & ->).
    repeat split.
  - intros Hne [= H]. apply Hne. apply (append_cancel_r _ _ _ H).
Qed.

Lemma identity_from_first_row_witness :
  "22002" <> "22009"
  /\ get_ips "22002" (Rows []) <> get_ips "22009" (Rows [])
  /\ get_ips "22002" (Rows scenario_rows)
     = get_ips "22009" (Rows scenario_rows).
Proof.
  assert (Hne : "22002" <> "22009") by discriminate.
  split; [exact Hne|]. split.
  - exact (proj2 (proj2 (identity_from_first_row "22002" "22009"
                           (sample_row "22002" "A" 3)
                           [sample_row "22002" "B+" 4])) Hne).
  - exact (proj1 (identity_from_first_row "22002" "22009"
                    (sample_row "22002" "A" 3)
                    [sample_row "22002" "B+" 4])).
Defined.

(** X13: in the exact range of binary64 the order of the rows does not
    matter: two orders of the same rows give the same total_sks,
    total_bobot and ips, and the same detail records in the other order. *)
Theorem row_order_irrelevant (nim : string) (rows rows' : list krs_row) :
  Permutation rows rows' ->
  Forall valid_grade rows -> sum_sks rows <> 0 ->
  sum_abs_sks rows < 2 ^ 49 ->
  exists r r',
    get_ips nim (Rows rows) = inr r /\ get_ips nim (Rows rows') = inr r'
    /\ total_sks r = total_sks r' /\ total_bobot r = total_bobot r'
    /\ ips r = ips r'
    /\ Permutation (detail_perhitungan r) (detail_perhitungan r').
Proof.
  intros Hperm Hv Hs Hb.
  destruct (sums_permutation rows rows' Hperm) as (Hs1 & Hs2 & Hs3).
  assert (Hv' : Forall valid_grade rows')
    by (eapply Permutation_Forall; eassumption).
  destruct (get_ips_exact nim rows Hv Hs Hb) as (r & Hr & H1 & H2 & H3).
  destruct (get_ips_exact nim rows' Hv') as (r' & Hr' & H1' & H2' & H3');
    try lia.
  exists r, r'. repeat (split; [congruence|]).
  destruct (get_ips_inr _ _ _ Hr)
    as (? & ? & ps & ds & y & _ & _ & Hds & _ & _ & ->).
  destruct (get_ips_inr _ _ _ Hr')
    as (? & ? & ps' & ds' & y' & _ & _ & Hds' & _ & _ & ->).
  cbn [detail_perhitungan].
  destruct (traverse_permutation row_detail rows rows' Hperm ds Hds)
    as (ds'' & Hds'' & Hp).
  congruence.
Qed.

Lemma row_order_irrelevant_witness :
  Permutation tie_rows (rev tie_rows)
  /\ Forall valid_grade tie_rows /\ sum_sks tie_rows <> 0
  /\ sum_abs_sks tie_rows < 2 ^ 49
  /\ exists r r',
       get_ips "22004" (Rows tie_rows) = inr r
       /\ get_ips "22004" (Rows (rev tie_rows)) = inr r'
       /\ total_sks r = total_sks r' /\ total_bobot r = total_bobot r'
       /\ ips r = ips r'
       /\ Permutation (detail_perhitungan r) (detail_perhitungan r').
Proof.
  assert (Hperm : Permutation tie_rows (rev tie_rows))
    by apply Permutation_rev.
  assert (Hv : Forall valid_grade tie_rows) by grades_valid.
  assert (Hs : sum_sks tie_rows <> 0) by discriminate.
  assert (Hb : sum_abs_sks tie_rows < 2 ^ 49) by reflexivity.
  repeat (split; [assumption|]).
  exact (row_order_irrelevant "22004" tie_rows (rev tie_rows) Hperm Hv Hs Hb).
Defined.

(** X14: with valid grades and no negative credit hours (total positive,
    below 2^43), the average returned is a number of 2 decimals between
    0.00 and 4.00. *)
Theorem ips_between_0_and_4 (nim : string) (rows : list krs_row) :
  Forall valid_grade rows -> Forall (fun row => 0 <= row_sks row) rows ->
  0 < sum_sks rows -> sum_sks rows < 2 ^ 43 ->
  exists r n,
    get_ips nim (Rows rows) = inr r /\ ips r = dec n 2 /\ 0 <= n <= 400.
Proof.
  intros Hv Hp Hs Hb.
  destruct (get_ips_nearest nim rows Hv Hp ltac:(lia))
    as (r & Hr & _ & _ & (n & Hn & Hnear) & _).
  pose proof (sum_bobot100_range rows Hv Hp).
  exists r, n. repeat split; try assumption; nia.
Qed.

Lemma ips_between_0_and_4_witness :
  Forall valid_grade tie_rows
  /\ Forall (fun row => 0 <= row_sks row) tie_rows
  /\ 0 < sum_sks tie_rows /\ sum_sks tie_rows < 2 ^ 43
  /\ exists r n,
       get_ips "22004" (Rows tie_rows) = inr r /\ ips r = dec n 2
       /\ 0 <= n <= 400.
Proof.
  assert (Hv : Forall valid_grade tie_rows) by grades_valid.
  assert (Hp : Forall (fun row => 0 <= row_sks row) tie_rows)
    by (repeat constructor; discriminate).
  assert (Hs : 0 < sum_sks tie_rows) by reflexivity.
  assert (Hb : sum_sks tie_rows < 2 ^ 43) by reflexivity.
  repeat (split; [assumption|]).
  exact (ips_between_0_and_4 "22004" tie_rows Hv Hp Hs Hb).
Defined.

(** X15: when every row carries the same grade, the average is the
    weight of that grade exactly, and total_bobot is that weight times
    the total of the credit hours. *)
Theorem uniform_grade_average (nim : string) (rows : list krs_row)
    (grade : string) (w : float) (w100 : Z) :
  dict_get bobot_nilai grade = Some w ->
  dict_get grade_weight_table grade = Some w100 ->
  Forall (fun row => normalize (row_nilai row) = grade) rows ->
  Forall (fun row => 0 <= row_sks row) rows ->
  0 < sum_sks rows -> sum_sks rows < 2 ^ 43 ->
  exists r,
    get_ips nim (Rows rows) = inr r /\ ips r = w
    /\ total_bobot r = dec (w100 * sum_sks rows) 2.
Proof.
  intros Hw Hw100 Hg Hp Hs Hb.
  assert (Hv : Forall valid_grade rows).
  { eapply Forall_impl; [|exact Hg]. intros row Hrow. unfold valid_grade.
    cbv beta in Hrow. rewrite Hrow. exact (bobot_key_valid _ _ Hw). }
  destruct (get_ips_nearest nim rows Hv Hp ltac:(lia))
    as (r & Hr & _ & Ht & _ & Hexact).
  rewrite (sum_bobot100_uniform rows grade w100 Hw100 Hg) in *.
  exists r. split; [assumption|]. split; [|assumption].
  rewrite Hexact.
  - rewrite div_half_even_multiple by lia.
    destruct (table_cases grade) as [(Hn & _) | (q & Hq & Hbq & Hwq & _)];
      [congruence|].
    rewrite Hbq in Hw. rewrite Hwq in Hw100.
    injection Hw as <-. injection Hw100 as <-.
    apply dec_quarters. lia.
  - rewrite Z.mod_mul by lia. lia.
Qed.

Lemma uniform_grade_average_witness :
  dict_get bobot_nilai "B+" = Some (dec 35 1)
  /\ dict_get grade_weight_table "B+" = Some 350
  /\ Forall (fun row => normalize (row_nilai row) = "B+") uniform_rows
  /\ Forall (fun row => 0 <= row_sks row) uniform_rows
  /\ 0 < sum_sks uniform_rows /\ sum_sks uniform_rows < 2 ^ 43
  /\ exists r,
       get_ips "22010" (Rows uniform_rows) = inr r /\ ips r = dec 35 1
       /\ total_bobot r = dec (350 * sum_sks uniform_rows) 2.
Proof.
  assert (Hw : dict_get bobot_nilai "B+" = Some (dec 35 1)) by reflexivity.
  assert (Hw100 : dict_get grade_weight_table "B+" = Some 350)
    by reflexivity.
  assert (Hg : Forall (fun row => normalize (row_nilai row) = "B+")
                 uniform_rows) by (repeat constructor).
  assert (Hp : Forall (fun row => 0 <= row_sks row) uniform_rows)
    by (repeat constructor; discriminate).
  assert (Hs : 0 < sum_sks uniform_rows) by reflexivity.
  assert (Hb : sum_sks uniform_rows < 2 ^ 43) by reflexivity.
  repeat (split; [assumption|]).
  exact (uniform_grade_average "22010" uniform_rows "B+" (dec 35 1) 350
           Hw Hw100 Hg Hp Hs Hb).
Defined.

(** X16: a result holds one detail record per row, in the order of the
    rows; the record of a row carries its credit hours unchanged, a grade
    that is one of the nine keys of the table, the weight the table has
    for that grade, and that weight times the credit hours rounded. *)
Theorem detail_records_consistent (nim : string) (rows : list krs_row)
    (r : ips_response) :
  get_ips nim (Rows rows) = inr r ->
  List.length (detail_perhitungan r) = List.length rows
  /\ forall i row, nth_error rows i = Some row ->
       exists d y,
         nth_error (detail_perhitungan r) i = Some d
         /\ d_nilai d = normalize (row_nilai row)
         /\ d_sks d = row_sks row
         /\ In (d_nilai d) (dict_keys bobot_nilai)
         /\ dict_get bobot_nilai (d_nilai d) = Some (d_bobot d)
         /\ of_int (d_sks d) = Some y
         /\ d_bobot_x_sks d = round (mul (d_bobot d) y) 2.
Proof.
  intros Hr.
  destruct (get_ips_inr _ _ _ Hr)
    as (? & ? & ps & ds & y & _ & _ & Hds & _ & _ & ->).
  cbn [detail_perhitungan].
  destruct (traverse_nth row_detail rows ds Hds) as [Hlen Hnth].
  split; [assumption|]. intros i row Hrow.
  destruct (Hnth i row Hrow) as (d & Hd & Hrd).
  unfold row_detail, row_product in Hrd.
  destruct (dict_get bobot_nilai (normalize (row_nilai row))) as [w|] eqn:Hw;
    [|discriminate].
  destruct (of_int (row_sks row)) as [yr|] eqn:Hy; [|discriminate].
  injection Hrd as <-. eexists; exists yr. split; [exact Hd|].
  cbn [d_nilai d_sks d_bobot d_bobot_x_sks].
  repeat split; try assumption.
  exact (bobot_key_valid _ _ Hw).
Qed.

Lemma detail_records_consistent_witness :
  exists r,
    get_ips "22002" (Rows scenario_rows) = inr r
    /\ List.length (detail_perhitungan r) = List.length scenario_rows
    /\ exists d y,
         nth_error (detail_perhitungan r) 1 = Some d
         /\ d_nilai d = "B+" /\ d_sks d = 4
         /\ In (d_nilai d) (dict_keys bobot_nilai)
         /\ dict_get bobot_nilai (d_nilai d) = Some (d_bobot d)
         /\ of_int (d_sks d) = Some y
         /\ d_bobot_x_sks d = round (mul (d_bobot d) y) 2.
Proof.
  eexists. split; [reflexivity|]. split.
  - exact (proj1 (detail_records_consistent "22002" scenario_rows _
                    eq_refl)).
  - exact (proj2 (detail_records_consistent "22002" scenario_rows _
                    eq_refl) 1%nat (sample_row "22002" "B+" 4) eq_refl).
Defined.

(** X17: in the exact range of binary64 the products shown in the detail
    records add up to the total_bobot shown. *)
Theorem details_sum_to_total (nim : string) (rows : list krs_row) :
  Forall valid_grade rows -> sum_sks rows <> 0 ->
  sum_abs_sks rows < 2 ^ 49 ->
  exists r,
    get_ips nim (Rows rows) = inr r
    /\ fold_left add (map d_bobot_x_sks (detail_perhitungan r)) (dec 0 1)
       = total_bobot r.
Proof.
  intros Hv Hs Hb.
  destruct (get_ips_exact nim rows Hv Hs Hb) as (r & Hr & _ & Ht & _).
  exists r. split; [assumption|]. rewrite Ht.
  destruct (get_ips_inr _ _ _ Hr)
    as (? & ? & ps & ds & y & _ & _ & Hds & _ & _ & ->).
  cbn [detail_perhitungan].
  pose proof (sum_quarters_bound rows Hv).
  change (dec 0 1) with (of_quarters 0).
  rewrite (details_add_up rows Hv 0 ds) by (lia || assumption).
  rewrite (sum_bobot100_quarters _ Hv), dec_quarters by lia.
  reflexivity.
Qed.

Lemma details_sum_to_total_witness :
  Forall valid_grade tie_rows /\ sum_sks tie_rows <> 0
  /\ sum_abs_sks tie_rows < 2 ^ 49
  /\ exists r,
       get_ips "22004" (Rows tie_rows) = inr r
       /\ fold_left add (map d_bobot_x_sks (detail_perhitungan r)) (dec 0 1)
          = total_bobot r.
Proof.
  assert (Hv : Forall valid_grade tie_rows) by grades_valid.
  assert (Hs : sum_sks tie_rows <> 0) by discriminate.
  assert (Hb : sum_abs_sks tie_rows < 2 ^ 49) by reflexivity.
  repeat (split; [assumption|]).
  exact (details_sum_to_total "22004" tie_rows Hv Hs Hb).
Defined.


(** X19: a row whose credit hours are NULL or not a number, the rows
    before it being valid and convertible, is answered with 500 and the
    message of [int(row[4])], whatever its grade and the rows after it:
    the conversion comes before the grade is looked up. *)
Theorem not_int_rejected (nim : string) (pre : list krs_row)
    (bad : AcadRaw.raw_row) (post : list AcadRaw.raw_row)
    (cls : error_class) (msg : string) :
  Forall valid_grade pre -> Forall row_convertible pre ->
  AcadRaw.raw_sks bad = AcadRaw.NotInt cls msg ->
  AcadRaw.get_ips nim (Rows (map AcadRaw.raw_of pre ++ bad :: post))
  = inl (HTTPException 500 msg).
Proof.
  intros Hv Hc Hb. unfold AcadRaw.get_ips, AcadRaw.get_ips_body.
  cbn [fetchall bind ret].
  destruct (map AcadRaw.raw_of pre ++ bad :: post)%list
    as [ | row0 rest ] eqn:Hrows; [destruct pre; discriminate|].
  rewrite <- Hrows, loop_raw_app.
  rewrite (loop_typed _ pre init_state (traverse_raw_of pre)).
  destruct (loop_succeeds pre Hv Hc init_state) as (st & -> & _).
  cbn [bind AcadRaw.loop]. unfold AcadRaw.loop_body. rewrite Hb.
  reflexivity.
Qed.

Lemma not_int_rejected_witness :
  Forall valid_grade [sample_row "22012" "A" 3]
  /\ Forall row_convertible [sample_row "22012" "A" 3]
  /\ AcadRaw.get_ips "22012"
       (Rows (map AcadRaw.raw_of [sample_row "22012" "A" 3]
                ++ AcadRaw.null_sks_row :: []))
     = inl (HTTPException 500
              "int() argument must be a string, a bytes-like object or a real number, not 'NoneType'").
Proof.
  assert (Hv : Forall valid_grade [sample_row "22012" "A" 3])
    by grades_valid.
  assert (Hc : Forall row_convertible [sample_row "22012" "A" 3])
    by sks_convertible.
  repeat (split; [assumption|]).
  exact (not_int_rejected "22012" _ AcadRaw.null_sks_row [] _ _ Hv Hc
           eq_refl).
Defined.

End Coverage.
